(** * The memory manager of agno (libs/agno/agno/memory/v2/manager.py)

    A shallow embedding of [MemoryManager] and of the properties its
    specification states about it.

    Conventions of the embedding.
    - Python strings are [string]; ["\n"] is [nl]; [sep.join(xs)] is
      [String.concat sep xs]; an f-string is a concatenation.
    - Code that touches the storage backend, the clock or the uuid source
      runs in the monad [M]: a state monad over [World] whose results are
      [Ok v] or [Raise e].  Unlike a state-over-error stack, the world
      reached when an exception is raised is kept, as in Python.  An
      exception is identified with its message [str(e)].
    - [self] is passed explicitly; a method that assigns to a field of
      [self] returns the manager it leaves behind.
    - Logging ([log_debug], [log_warning], [log_error]) is not modelled. *)

From Stdlib Require Import String Ascii List Bool Arith Lia.
Import ListNotations.
Open Scope string_scope.

(** ** Strings *)

Definition nl : string := String "010"%char EmptyString.

(** [needle in hay] *)
Fixpoint contains (needle hay : string) : bool :=
  String.prefix needle hay ||
  match hay with
  | EmptyString => false
  | String _ rest => contains needle rest
  end.

(** [s.split("\n")] *)
Fixpoint split_lines_from (cur s : string) : list string :=
  match s with
  | EmptyString => [cur]
  | String c rest =>
      if Ascii.eqb c "010"%char
      then cur :: split_lines_from "" rest
      else split_lines_from (cur ++ String c EmptyString) rest
  end.

Definition split_lines (s : string) : list string := split_lines_from "" s.

(** ** Data model *)

(** [agno.models.message.Message], the two fields this module reads. *)
Record Message := mkMessage { role : string; content : option string }.

(** Modelled from the spec: [Message.get_content_string] is declared in
    agno.models.message; the spec gives a message "a role and textual
    content", so the content string of a message is its text, and the
    empty string when there is none. *)
Definition get_content_string (m : Message) : string :=
  match content m with
  | Some s => s
  | None => ""
  end.

(** Truth value of [m.content]: neither [None] nor the empty string. *)
Definition content_truthy (m : Message) : bool :=
  match content m with
  | Some s => negb (s =? "")
  | None => false
  end.

(** One element of [existing_memories]: a dict read at the keys
    ['memory_id'] and ['memory'] (the spec: "plain key/value records:
    id + text"). *)
Record ExistingMemory := mkExisting { em_memory_id : string; em_memory : string }.

Definition Timestamp := nat.

(** [UserMemory(...).to_dict()] *)
Record UserMemory := mkUserMemory {
  um_memory_id : string;
  um_memory : string;
  um_topics : option (list string);
  um_last_updated : Timestamp;
  um_input : string
}.

Record MemoryRow := mkMemoryRow {
  row_id : string;
  row_user_id : string;
  row_memory : UserMemory;
  row_last_updated : Timestamp
}.

(** Keyword arguments of a tool invocation: every parameter name that one
    of the tools of this module takes. *)
Record Kwargs := mkKwargs {
  kw_memory_id : string;
  kw_memory : string;
  kw_topics : option (list string)
}.

Record ToolCall := mkToolCall { tc_name : string; tc_kwargs : Kwargs }.

(** What [Model.response] returns, as far as this module reads it. *)
Record ModelResponse := mkResponse {
  r_content : option string;
  r_tool_calls : option (list ToolCall)
}.

(** [Ok v]: normal return; [Raise e]: an exception whose [str] is [e]. *)
Inductive Result (A : Type) : Type :=
| Ok (v : A)
| Raise (e : string).
Arguments Ok {A} v.
Arguments Raise {A} e.

Section Embedding.

(** The state of the storage backend and the parameter schema that
    [Function.from_callable] derives are left abstract. *)
Context {DbState Schema : Type}.

(** [func.to_dict()] *)
Record FunctionDict := mkFunctionDict {
  fd_name : string;
  fd_strict : bool;
  fd_parameters : Schema
}.

(** [{"type": "function", "function": func.to_dict()}] *)
Record ToolDict := mkToolDict { td_type : string; td_function : FunctionDict }.

(** The interactions of the module with its collaborators, in order. *)
Inductive Event :=
| EvUpsert (row : MemoryRow)
| EvDelete (memory_id : string)
| EvClear
| EvResponse (tools : option (list ToolDict)) (messages : list Message)
| EvAResponse (tools : option (list ToolDict)) (messages : list Message).

Record World := mkWorld {
  w_db : DbState;
  w_now : nat -> Timestamp;     (* what [datetime.now()] returns at each draw *)
  w_uuid4 : nat -> string;      (* what [str(uuid4())] returns at each draw *)
  w_tick : nat;                 (* draws made so far *)
  w_trace : list Event
}.

Definition M (A : Type) : Type := World -> Result A * World.

Definition ret {A} (v : A) : M A := fun w => (Ok v, w).

Definition bind {A B} (c : M A) (k : A -> M B) : M B :=
  fun w =>
    match c w with
    | (Ok v, w') => k v w'
    | (Raise e, w') => (Raise e, w')
    end.

(** [try: c  except Exception as e: h e] *)
Definition try_except {A} (c : M A) (h : string -> M A) : M A :=
  fun w =>
    match c w with
    | (Ok v, w') => (Ok v, w')
    | (Raise e, w') => h e w'
    end.

Notation "x <- c ;; k" := (bind c (fun x => k))
  (at level 61, c at next level, right associativity).
Notation "c ;;; k" := (bind c (fun _ => k))
  (at level 61, right associativity).

Definition record_event (ev : Event) (w : World) : World :=
  mkWorld (w_db w) (w_now w) (w_uuid4 w) (w_tick w) (w_trace w ++ [ev]).

Definition datetime_now : M Timestamp :=
  fun w => (Ok (w_now w (w_tick w)),
            mkWorld (w_db w) (w_now w) (w_uuid4 w) (S (w_tick w)) (w_trace w)).

Definition uuid4_str : M string :=
  fun w => (Ok (w_uuid4 w (w_tick w)),
            mkWorld (w_db w) (w_now w) (w_uuid4 w) (S (w_tick w)) (w_trace w)).

(** [agno.memory.v2.db.base.MemoryDb]: [db.upsert_memory], [db.delete_memory]
    and [db.clear]; each may raise. *)
Record MemoryDb := mkMemoryDb {
  db_upsert_memory : MemoryRow -> DbState -> Result unit * DbState;
  db_delete_memory : string -> DbState -> Result unit * DbState;
  db_clear : DbState -> Result unit * DbState
}.

Definition db_call (ev : Event) (f : DbState -> Result unit * DbState) : M unit :=
  fun w =>
    let w1 := record_event ev w in
    let '(r, s) := f (w_db w1) in
    (r, mkWorld s (w_now w1) (w_uuid4 w1) (w_tick w1) (w_trace w1)).

(** A Python callable handed to the model: its [__name__] and its body. *)
Record Callable := mkCallable {
  __name__ : string;
  call : Kwargs -> M string
}.

(** [agno.tools.function.Function] *)
Record Function := mkFunction {
  f_name : string;
  f_strict : bool;
  f_parameters : Schema;
  f_entrypoint : Kwargs -> M string
}.

Definition to_dict (func : Function) : FunctionDict :=
  mkFunctionDict (f_name func) (f_strict func) (f_parameters func).

(** The schema reflection behind [Function.from_callable]; it may fail. *)
Variable derive_schema : Callable -> bool -> Result Schema.

(** Modelled from the spec: [Function.from_callable] is declared in
    agno.tools.function.  The spec: it "derives a callable's
    name/parameter schema for presentation to the model; failures here
    are non-fatal". *)
Definition from_callable (tool : Callable) (strict : bool) : Result Function :=
  match derive_schema tool strict with
  | Ok s => Ok (mkFunction (__name__ tool) strict s (call tool))
  | Raise e => Raise e
  end.

(** What the model does with a conversation: it either answers, or asks
    for one tool invocation and goes on from the tool's result. *)
Inductive Script :=
| Done (r : ModelResponse)
| Invoke (fname : string) (kwargs : Kwargs) (k : string -> Script).

(** [agno.models.base.Model]: the registered tools and functions, and how
    the model behind [response] and [aresponse] reacts to the tools and
    messages it is shown. *)
Record Model := mkModel {
  _tools : option (list ToolDict);
  _functions : option (list (string * Function));
  policy : option (list ToolDict) -> list Message -> Script;
  apolicy : option (list ToolDict) -> list Message -> Script
}.

(** Python dicts keyed by strings, in insertion order. *)
Fixpoint dict_get {V} (k : string) (d : list (string * V)) : option V :=
  match d with
  | [] => None
  | (k', v) :: rest => if k' =? k then Some v else dict_get k rest
  end.

Definition dict_mem {V} (k : string) (d : list (string * V)) : bool :=
  match dict_get k d with Some _ => true | None => false end.

Fixpoint dict_set {V} (k : string) (v : V) (d : list (string * V)) : list (string * V) :=
  match d with
  | [] => [(k, v)]
  | (k', v') :: rest => if k' =? k then (k, v) :: rest else (k', v') :: dict_set k v rest
  end.

(** Modelled from the spec: [reset_tools_and_functions], [set_tools] and
    [set_functions] are declared in agno.models.base.  The spec lists the
    model capability as [reset_tools(...)], [set_tools(...)], and has a
    registration replace "any tools previously registered on that model
    instance (full reset, not additive)".  A dict without functions is not
    stored: after the reset the model then has no functions. *)
Definition reset_tools_and_functions (m : Model) : Model :=
  mkModel None None (policy m) (apolicy m).

Definition set_tools (tools : list ToolDict) (m : Model) : Model :=
  mkModel (Some tools) (_functions m) (policy m) (apolicy m).

Definition set_functions (functions : list (string * Function)) (m : Model) : Model :=
  match functions with
  | [] => m
  | _ :: _ => mkModel (_tools m) (Some functions) (policy m) (apolicy m)
  end.

Definition no_such_function : string := "Could not find function to call.".

(** Modelled from the spec: the loop that runs the tool invocations of one
    response is part of [Model.response], declared in agno.models.base.
    The spec: failures inside a tool are "absorbed locally and surfaced as
    plain strings either to the model (tool result) or to a local warning,
    never propagated as a thrown fault from an entry point".  A tool that
    returns hands its result to the model, a tool that raises hands it the
    message of the exception, and the response goes on in both cases. *)
Fixpoint run_function_calls (functions : list (string * Function)) (s : Script)
  : M ModelResponse :=
  match s with
  | Done r => ret r
  | Invoke fname kwargs k =>
      match dict_get fname functions with
      | Some func =>
          out <- try_except (f_entrypoint func kwargs) (fun e => ret e) ;;
          run_function_calls functions (k out)
      | None => run_function_calls functions (k no_such_function)
      end
  end.

Definition registered_functions (m : Model) : list (string * Function) :=
  match _functions m with Some fs => fs | None => [] end.

(** Modelled from the spec: [Model.response] is declared in
    agno.models.base.  The spec: "a synchronous
    [response(messages) -> {content, tool_calls}] and an asynchronous
    equivalent"; the call "includes running function calls". *)
Definition response (m : Model) (messages : list Message) : M ModelResponse :=
  fun w =>
    run_function_calls (registered_functions m) (policy m (_tools m) messages)
      (record_event (EvResponse (_tools m) messages) w).

Definition aresponse (m : Model) (messages : list Message) : M ModelResponse :=
  fun w =>
    run_function_calls (registered_functions m) (apolicy m (_tools m) messages)
      (record_event (EvAResponse (_tools m) messages) w).

Definition deepcopy (m : Model) : Model := m.


(** ** The manager *)

Record MemoryManager := mkMemoryManager {
  model : option Model;
  system_prompt : option string;
  memories_updated : bool
}.

(** [MemoryManager.__init__]; [memories_updated] keeps its class default.
    The [ValueError] branch needs a model that is a [str], which the type
    of [model] excludes. *)
Definition MemoryManager_init (model : option Model) (system_prompt : option string)
  : MemoryManager :=
  mkMemoryManager model system_prompt false.

Definition set_memories_updated (self : MemoryManager) (b : bool) : MemoryManager :=
  mkMemoryManager (model self) (system_prompt self) b.

(** One turn of the loop of [add_tools_to_model] over
    [(_tools_for_model, _functions_for_model)]. *)
Definition add_tool (acc : list ToolDict * list (string * Function)) (tool : Callable)
  : list ToolDict * list (string * Function) :=
  let '(_tools_for_model, _functions_for_model) := acc in
  let function_name := __name__ tool in
  if negb (dict_mem function_name _functions_for_model) then
    match from_callable tool true with
    | Ok func =>
        let func := mkFunction (f_name func) true (f_parameters func) (f_entrypoint func) in
        ((_tools_for_model ++ [mkToolDict "function" (to_dict func)])%list,
         dict_set (f_name func) func _functions_for_model)
    | Raise e => acc
    end
  else acc.

Definition add_tools_to_model (self : MemoryManager) (model : Model) (tools : list Callable)
  : Model :=
  let model := reset_tools_and_functions model in
  let '(_tools_for_model, _functions_for_model) := fold_left add_tool tools ([], []) in
  let model := set_tools _tools_for_model model in
  set_functions _functions_for_model model.

Definition task_line : string :=
  "Your task is to add, update, or delete memories based on the user's task. " ++
  "You can also decide that no new memories or other changes are needed. " ++
  "If you do create new memories, create one or more memories that captures the key information provided by the user, as if you were storing it for future reference. " ++
  "Memories should be a brief, third-person statement that encapsulates the most important aspect of the user's input, without adding any extraneous information. " ++
  "Don't make a single memory too long, but do create multiple memories if needed to capture all the information. " ++
  "When updating a memory, append the existing memory with new information rather than completely overwriting it. " ++
  "If there is no new information, do not update the memory. " ++
  "Memories should include details that could personalize ongoing interactions with the user, such as:" ++
  "  - Personal facts: name, age, occupation, location, interests, preferences, etc." ++
  "  - Significant life events or experiences shared by the user" ++
  "  - Important context about the user's current situation, challenges or goals" ++
  "  - What the user likes or dislikes, their opinions, beliefs, values, etc." ++
  "  - Any other details that provide valuable insights into the user's personality, perspective or needs".

Definition is_user (message : Message) : bool := role message =? "user".

(** The lines that the loop over [existing_memories] appends. *)
Fixpoint existing_memory_lines (existing_memories : list ExistingMemory) : list string :=
  match existing_memories with
  | [] => []
  | existing_memory :: rest =>
      ("ID: " ++ em_memory_id existing_memory)
      :: ("Memory: " ++ em_memory existing_memory)
      :: nl
      :: existing_memory_lines rest
  end.

(** The list [system_prompt_lines] when [get_system_message] returns. *)
Definition system_prompt_lines
    (existing_memories : option (list ExistingMemory))
    (messages : option (list Message))
    (enable_delete_memory enable_clear_memory : bool) : list string :=
  let system_prompt_lines :=
    [ task_line;
      "You will also be provided with a list of existing memories. You may:";
      "  1. Decide to make no changes to the existing memories.";
      "  2. Decide to add a new memory using the `add_memory` tool.";
      "  3. Decide to update an existing memory using the `update_memory` tool." ] in
  let system_prompt_lines :=
    if enable_delete_memory
    then (system_prompt_lines ++
          ["  4. Decide to delete an existing memory using the `delete_memory` tool."])%list
    else system_prompt_lines in
  let system_prompt_lines :=
    if enable_clear_memory
    then (system_prompt_lines ++
          ["  5. Decide to clear all memories using the `clear_memory` tool."])%list
    else system_prompt_lines in
  let system_prompt_lines :=
    (system_prompt_lines ++
     [ "You can call multiple of these tools in a single response if needed. ";
       "Only add or update memories if it is necessary to capture key information provided by the user." ])%list in
  let system_prompt_lines :=
    match messages with
    | Some ((_ :: _) as messages) =>
        let user_messages := map get_content_string (filter is_user messages) in
        (system_prompt_lines ++
         [ (nl ++ "<user_messages>")%string; String.concat nl user_messages;
           "</user_messages>" ])%list
    | _ => system_prompt_lines
    end in
  match existing_memories with
  | Some ((_ :: _) as existing_memories) =>
      (system_prompt_lines ++
       ["<existing_memories>"] ++ existing_memory_lines existing_memories ++
       ["</existing_memories>"])%list
  | _ => system_prompt_lines
  end.

(** The defaults of the keyword parameters are, in order, [None], [None],
    [True], [True]; a call site that leaves one out passes the default. *)
Definition get_system_message (self : MemoryManager)
    (existing_memories : option (list ExistingMemory))
    (messages : option (list Message))
    (enable_delete_memory enable_clear_memory : bool) : Message :=
  mkMessage "system"
    (Some (String.concat nl
             (system_prompt_lines existing_memories messages
                enable_delete_memory enable_clear_memory))).

(** ** The tools of [_get_db_tools]

    The four closures, with the variables they capture ([user_id], [db],
    [input_string]) as leading parameters. *)

Definition add_memory (user_id : string) (db : MemoryDb) (input_string : string)
    (memory : string) (topics : option (list string)) : M string :=
  try_except
    (last_updated <- datetime_now ;;
     memory_id <- uuid4_str ;;
     let row :=
       mkMemoryRow memory_id user_id
         (mkUserMemory memory_id memory topics last_updated input_string)
         last_updated in
     db_call (EvUpsert row) (db_upsert_memory db row) ;;;
     ret "Memory added successfully")
    (fun e => ret ("Error adding memory: " ++ e)).

Definition update_memory (user_id : string) (db : MemoryDb) (input_string : string)
    (memory_id : string) (memory : string) (topics : option (list string)) : M string :=
  try_except
    (last_updated <- datetime_now ;;
     let row :=
       mkMemoryRow memory_id user_id
         (mkUserMemory memory_id memory topics last_updated input_string)
         last_updated in
     db_call (EvUpsert row) (db_upsert_memory db row) ;;;
     ret "Memory updated successfully")
    (fun e => ret ("Error adding memory: " ++ e)).

Definition delete_memory (db : MemoryDb) (memory_id : string) : M string :=
  try_except
    (db_call (EvDelete memory_id) (db_delete_memory db memory_id) ;;;
     ret "Memory deleted successfully")
    (fun e => ret ("Error deleting memory: " ++ e)).

Definition clear_memory (db : MemoryDb) : M string :=
  db_call EvClear (db_clear db) ;;;
  ret "Memory cleared successfully".

(** The defaults of the four [enable_*] parameters are [True]. *)
Definition _get_db_tools (self : MemoryManager) (user_id : string) (db : MemoryDb)
    (input_string : string)
    (enable_add_memory enable_update_memory
     enable_delete_memory enable_clear_memory : bool) : list Callable :=
  let functions := [] in
  let functions :=
    if enable_add_memory
    then (functions ++
          [mkCallable "add_memory"
             (fun kw => add_memory user_id db input_string (kw_memory kw) (kw_topics kw))])%list
    else functions in
  let functions :=
    if enable_update_memory
    then (functions ++
          [mkCallable "update_memory"
             (fun kw => update_memory user_id db input_string
                          (kw_memory_id kw) (kw_memory kw) (kw_topics kw))])%list
    else functions in
  let functions :=
    if enable_delete_memory
    then (functions ++
          [mkCallable "delete_memory"
             (fun kw => delete_memory db (kw_memory_id kw))])%list
    else functions in
  let functions :=
    if enable_clear_memory
    then (functions ++ [mkCallable "clear_memory" (fun _ => clear_memory db)])%list
    else functions in
  functions.

(** ** The entry points *)

(** [input_string] of the two extract-from-dialogue entry points. *)
Definition input_string_of (messages : list Message) : string :=
  match messages with
  | [m] => get_content_string m
  | _ =>
      "[" ++ String.concat ", "
               (map get_content_string
                  (filter (fun m => is_user m && content_truthy m) messages)) ++ "]"
  end.

(** [response.tool_calls is not None and len(response.tool_calls) > 0] *)
Definition has_tool_calls (r : ModelResponse) : bool :=
  match r_tool_calls r with
  | Some (_ :: _) => true
  | _ => false
  end.

(** [response.content or "No response from model"] *)
Definition content_or (r : ModelResponse) (fallback : string) : string :=
  match r_content r with
  | Some s => if s =? "" then fallback else s
  | None => fallback
  end.

(** What an entry point leaves: its result, the manager and the world. *)
Definition Call : Type := World -> Result string * MemoryManager * World.

(** The common tail of the entry points, from the response on. *)
Definition finish (self : MemoryManager) (out : Result ModelResponse * World)
  : Result string * MemoryManager * World :=
  match out with
  | (Raise e, w') => (Raise e, self, w')
  | (Ok response, w') =>
      let self := if has_tool_calls response
                  then set_memories_updated self true else self in
      (Ok (content_or response "No response from model"), self, w')
  end.

Definition create_or_update_memories (self : MemoryManager)
    (messages : list Message) (existing_memories : list ExistingMemory)
    (user_id : string) (db : MemoryDb) : Call :=
  fun w =>
    match model self with
    | None => (Ok "No model provided for memory manager", self, w)
    | Some m =>
        let input_string := input_string_of messages in
        let model_copy := deepcopy m in
        let model_copy :=
          add_tools_to_model self model_copy
            (_get_db_tools self user_id db input_string true true false false) in
        let messages_for_model :=
          [ get_system_message self (Some existing_memories) (Some messages) false false;
            mkMessage "user"
              (Some "Create or update memories based on the user's messages.") ] in
        finish self (response model_copy messages_for_model w)
    end.

Definition acreate_or_update_memories (self : MemoryManager)
    (messages : list Message) (existing_memories : list ExistingMemory)
    (user_id : string) (db : MemoryDb) : Call :=
  fun w =>
    match model self with
    | None => (Ok "No model provided for memory manager", self, w)
    | Some m =>
        let input_string := input_string_of messages in
        let model_copy := deepcopy m in
        let model_copy :=
          add_tools_to_model self model_copy
            (_get_db_tools self user_id db input_string true true false false) in
        let messages_for_model :=
          [ get_system_message self (Some existing_memories) (Some messages) true true;
            mkMessage "user"
              (Some "Create or update memories based on the user's messages.") ] in
        finish self (aresponse model_copy messages_for_model w)
    end.

Definition run_memory_task (self : MemoryManager)
    (task : string) (existing_memories : list ExistingMemory)
    (user_id : string) (db : MemoryDb) : Call :=
  fun w =>
    match model self with
    | None => (Ok "No model provided for memory manager", self, w)
    | Some m =>
        let model_copy := deepcopy m in
        let model_copy :=
          add_tools_to_model self model_copy
            (_get_db_tools self user_id db task true true true true) in
        let messages_for_model :=
          [ get_system_message self (Some existing_memories) None true true;
            mkMessage "user" (Some task) ] in
        finish self (response model_copy messages_for_model w)
    end.

Definition arun_memory_task (self : MemoryManager)
    (task : string) (existing_memories : list ExistingMemory)
    (user_id : string) (db : MemoryDb) : Call :=
  fun w =>
    match model self with
    | None => (Ok "No model provided for memory manager", self, w)
    | Some m =>
        let model_copy := deepcopy m in
        let model_copy :=
          add_tools_to_model self model_copy
            (_get_db_tools self user_id db task true true true true) in
        let messages_for_model :=
          [ get_system_message self (Some existing_memories) None true true;
            mkMessage "user" (Some task) ] in
        finish self (aresponse model_copy messages_for_model w)
    end.

End Embedding.

(** ** The four entry points as one type of calls *)

Section Calls.

Context {DbState Schema : Type}.
Variable derive_schema : @Callable DbState Schema -> bool -> Result Schema.

Inductive EntryCall :=
| CreateOrUpdate (messages : list Message) (existing_memories : list ExistingMemory)
    (user_id : string) (db : @MemoryDb DbState)
| ACreateOrUpdate (messages : list Message) (existing_memories : list ExistingMemory)
    (user_id : string) (db : @MemoryDb DbState)
| RunTask (task : string) (existing_memories : list ExistingMemory)
    (user_id : string) (db : @MemoryDb DbState)
| ARunTask (task : string) (existing_memories : list ExistingMemory)
    (user_id : string) (db : @MemoryDb DbState).

Definition run_entry (c : EntryCall) (self : MemoryManager) : Call :=
  match c with
  | CreateOrUpdate messages existing_memories user_id db =>
      create_or_update_memories derive_schema self messages existing_memories user_id db
  | ACreateOrUpdate messages existing_memories user_id db =>
      acreate_or_update_memories derive_schema self messages existing_memories user_id db
  | RunTask task existing_memories user_id db =>
      run_memory_task derive_schema self task existing_memories user_id db
  | ARunTask task existing_memories user_id db =>
      arun_memory_task derive_schema self task existing_memories user_id db
  end.

(** The inference call that an entry point makes on the copy [m] of the
    manager's model (lines 149, 192, 225 and 258 of the source). *)
Definition model_call (c : EntryCall) (self : MemoryManager) (m : Model)
  : M ModelResponse :=
  match c with
  | CreateOrUpdate messages existing_memories user_id db =>
      response
        (add_tools_to_model derive_schema self (deepcopy m)
           (_get_db_tools self user_id db (input_string_of messages) true true false false))
        [ get_system_message self (Some existing_memories) (Some messages) false false;
          mkMessage "user"
            (Some "Create or update memories based on the user's messages.") ]
  | ACreateOrUpdate messages existing_memories user_id db =>
      aresponse
        (add_tools_to_model derive_schema self (deepcopy m)
           (_get_db_tools self user_id db (input_string_of messages) true true false false))
        [ get_system_message self (Some existing_memories) (Some messages) true true;
          mkMessage "user"
            (Some "Create or update memories based on the user's messages.") ]
  | RunTask task existing_memories user_id db =>
      response
        (add_tools_to_model derive_schema self (deepcopy m)
           (_get_db_tools self user_id db task true true true true))
        [ get_system_message self (Some existing_memories) None true true;
          mkMessage "user" (Some task) ]
  | ARunTask task existing_memories user_id db =>
      aresponse
        (add_tools_to_model derive_schema self (deepcopy m)
           (_get_db_tools self user_id db task true true true true))
        [ get_system_message self (Some existing_memories) None true true;
          mkMessage "user" (Some task) ]
  end.

(** One call of an entry point, as a step on (manager, world). *)
Definition call_step (st st' : MemoryManager * World) : Prop :=
  exists c r, run_entry c (fst st) (snd st) = (r, fst st', snd st').

(** Any number of calls, one after the other. *)
Inductive call_steps : MemoryManager * World -> MemoryManager * World -> Prop :=
| calls_none st : call_steps st st
| calls_more st st' st'' : call_step st st' -> call_steps st' st'' -> call_steps st st''.

End Calls.

(** ** The properties as the specification words them *)

(** A line carries an entry: it holds the entry's identifier and its text. *)
Definition carries (e : ExistingMemory) (line : string) : bool :=
  contains (em_memory_id e) line && contains (em_memory e) line.

(** Some lines, taken in order, carry the entries one by one. *)
Fixpoint one_line_per_entry (entries : list ExistingMemory) (lines : list string) : bool :=
  match lines with
  | [] => match entries with [] => true | _ :: _ => false end
  | line :: rest =>
      match entries with
      | [] => true
      | e :: es =>
          if carries e line then one_line_per_entry es rest
          else one_line_per_entry entries rest
      end
  end.

(** What an entry contributes to the rendered instruction: an [ID:] line,
    a [Memory:] line, and two empty lines. *)
Fixpoint entries_text (entries : list ExistingMemory) : string :=
  match entries with
  | [] => ""
  | e :: es =>
      "ID: " ++ em_memory_id e ++ nl ++ "Memory: " ++ em_memory e ++ nl ++ nl ++ nl
      ++ entries_text es
  end.

(** [m1, m2, ..., mk] *)
Fixpoint comma_joined (xs : list string) : string :=
  match xs with
  | [] => ""
  | [x] => x
  | x :: rest => x ++ ", " ++ comma_joined rest
  end.

Definition bracketed (xs : list string) : string := "[" ++ comma_joined xs ++ "]".

(** The contents of the user-authored messages, in order. *)
Fixpoint user_contents (messages : list Message) : list string :=
  match messages with
  | [] => []
  | m :: rest =>
      if role m =? "user" then get_content_string m :: user_contents rest
      else user_contents rest
  end.

(** The texts of the user-authored messages that have a non-empty text. *)
Fixpoint user_texts (messages : list Message) : list string :=
  match messages with
  | [] => []
  | m :: rest =>
      match content m with
      | Some ((String _ _) as s) =>
          if role m =? "user" then s :: user_texts rest else user_texts rest
      | _ => user_texts rest
      end
  end.

(** The synthetic input string as the specification words it. *)
Definition claimed_input_string (messages : list Message) : string :=
  match messages with
  | [m] => get_content_string m
  | _ => bracketed (user_contents messages)
  end.

(** The text of a rendered message. *)
Definition text_of (m : Message) : string := get_content_string m.

(** ** Notions used to state the properties *)

Section Notions.

Context {DbState Schema : Type}.
Variable derive_schema : @Callable DbState Schema -> bool -> Result Schema.
Implicit Types (self : @MemoryManager DbState Schema) (w : @World DbState Schema)
  (m : @Model DbState Schema) (db : @MemoryDb DbState).

(** The section that the existing memories add to the lines. *)
Definition existing_section (existing_memories : option (list ExistingMemory))
  : list string :=
  match existing_memories with
  | Some ((_ :: _) as existing_memories) =>
      ["<existing_memories>"] ++ existing_memory_lines existing_memories ++
      ["</existing_memories>"]
  | _ => []
  end%list.

(** The section that the dialogue adds to the lines. *)
Definition messages_section (messages : option (list Message)) : list string :=
  match messages with
  | Some ((_ :: _) as messages) =>
      [ nl ++ "<user_messages>";
        String.concat nl (map get_content_string (filter is_user messages));
        "</user_messages>" ]
  | _ => []
  end.

(** What the inputs add to the text of the instruction. *)
Definition embedded_data (existing_memories : option (list ExistingMemory))
    (messages : option (list Message)) : string :=
  match (messages_section messages ++ existing_section existing_memories)%list with
  | [] => ""
  | line :: rest => nl ++ String.concat nl (line :: rest)
  end.

(** The same manager with another [system_prompt]. *)
Definition with_system_prompt (p : option string) self : MemoryManager :=
  mkMemoryManager (model self) p (memories_updated self).

(** The row that [add_memory] hands to the backend when called in [w]. *)
Definition row_to_add (user_id input_string memory : string)
    (topics : option (list string)) w : MemoryRow :=
  let last_updated := w_now w (w_tick w) in
  let memory_id := w_uuid4 w (S (w_tick w)) in
  mkMemoryRow memory_id user_id
    (mkUserMemory memory_id memory topics last_updated input_string) last_updated.

(** The state in which the backend receives that row. *)
Definition world_at_upsert (user_id input_string memory : string)
    (topics : option (list string)) w : World :=
  mkWorld (w_db w) (w_now w) (w_uuid4 w) (S (S (w_tick w)))
    (w_trace w ++ [EvUpsert (row_to_add user_id input_string memory topics w)]).

(** A tool body that returns in every world, whatever its arguments. *)
Definition never_raises (f : Kwargs -> @M DbState Schema string) : Prop :=
  forall kw w, exists out w', f kw w = (Ok out, w').

(** The names of the operations that a model exposes. *)
Definition tool_names m : option (list string) :=
  option_map (map (fun t => fd_name (td_function t))) (_tools m).

(** The names under which a model can invoke a function. *)
Definition function_names m : option (list string) :=
  option_map (map fst) (_functions m).

(** Schema reflection succeeds on the tools of this module. *)
Definition schemas_derivable : Prop :=
  forall tool : Callable,
    In (__name__ tool) ["add_memory"; "update_memory"; "delete_memory"; "clear_memory"] ->
    exists s, derive_schema tool true = Ok s.

(** A row written for a user from an input string: it carries both, and
    its memory carries the identifier and the timestamp of the row. *)
Definition row_for (user_id input_string : string) (row : MemoryRow) : Prop :=
  row_user_id row = user_id
  /\ um_input (row_memory row) = input_string
  /\ um_memory_id (row_memory row) = row_id row
  /\ um_last_updated (row_memory row) = row_last_updated row.

(** An upsert of a row for the user; nothing else. *)
Definition is_upsert_for (user_id input_string : string) (ev : @Event Schema) : Prop :=
  match ev with
  | EvUpsert row => row_for user_id input_string row
  | _ => False
  end.

(** A storage call, whose row, if it has one, is for the user. *)
Definition is_storage_for (user_id input_string : string) (ev : @Event Schema) : Prop :=
  match ev with
  | EvUpsert row => row_for user_id input_string row
  | EvDelete _ | EvClear => True
  | EvResponse _ _ | EvAResponse _ _ => False
  end.

(** Neither [db.delete_memory] nor [db.clear]. *)
Definition not_a_purge (ev : @Event Schema) : Prop :=
  match ev with
  | EvDelete _ | EvClear => False
  | _ => True
  end.

(** If an upsert, then of a row for the user. *)
Definition upserts_for (user_id input_string : string) (ev : @Event Schema) : Prop :=
  match ev with
  | EvUpsert row => row_for user_id input_string row
  | _ => True
  end.

(** The trace of [w'] is the trace of [w] followed by events that are [P]. *)
Definition grows_by (P : @Event Schema -> Prop) w w' : Prop :=
  exists evs, w_trace w' = (w_trace w ++ evs)%list /\ Forall P evs.

(** A tool body that, returning or raising, records only events that are [P]. *)
Definition records_only (P : @Event Schema -> Prop)
    (f : Kwargs -> @M DbState Schema string) : Prop :=
  forall kw w, grows_by P w (snd (f kw w)).

(** The user on whose behalf a call is made, and the input string that the
    call hands to its tools. *)
Definition user_of (c : @EntryCall DbState) : string :=
  match c with
  | CreateOrUpdate _ _ user_id _ | ACreateOrUpdate _ _ user_id _
  | RunTask _ _ user_id _ | ARunTask _ _ user_id _ => user_id
  end.

Definition input_of (c : @EntryCall DbState) : string :=
  match c with
  | CreateOrUpdate messages _ _ _ | ACreateOrUpdate messages _ _ _ =>
      input_string_of messages
  | RunTask task _ _ _ | ARunTask task _ _ _ => task
  end.

(** The content of the user message that a call sends after the system
    instruction. *)
Definition user_instruction (c : @EntryCall DbState) : string :=
  match c with
  | CreateOrUpdate _ _ _ _ | ACreateOrUpdate _ _ _ _ =>
      "Create or update memories based on the user's messages."
  | RunTask task _ _ _ | ARunTask task _ _ _ => task
  end.

(** The event of the inference call of a call. *)
Definition inference_event (c : @EntryCall DbState)
    (tools : option (list (@ToolDict Schema))) (messages : list Message)
  : @Event Schema :=
  match c with
  | CreateOrUpdate _ _ _ _ | RunTask _ _ _ _ => EvResponse tools messages
  | ACreateOrUpdate _ _ _ _ | ARunTask _ _ _ _ => EvAResponse tools messages
  end.

(** The storage calls that the tools registered for a call can make. *)
Definition storage_of (c : @EntryCall DbState) : @Event Schema -> Prop :=
  match c with
  | CreateOrUpdate _ _ _ _ | ACreateOrUpdate _ _ _ _ =>
      is_upsert_for (user_of c) (input_of c)
  | RunTask _ _ _ _ | ARunTask _ _ _ _ =>
      is_storage_for (user_of c) (input_of c)
  end.

(** Schema reflection succeeds on the tool. *)
Definition derivable (tool : @Callable DbState Schema) : bool :=
  match derive_schema tool true with
  | Ok _ => true
  | Raise _ => false
  end.

(** Two worlds that differ at most in their traces. *)
Definition same_state w1 w2 : Prop :=
  w_db w1 = w_db w2 /\ w_now w1 = w_now w2 /\ w_uuid4 w1 = w_uuid4 w2
  /\ w_tick w1 = w_tick w2.

(** A computation that does not read the trace: from two worlds that differ
    at most in their traces it gives the same outcome, and adds the same
    events to both traces. *)
Definition trace_blind {A} (f : @M DbState Schema A) : Prop :=
  forall w1 w2,
    same_state w1 w2 ->
    fst (f w1) = fst (f w2)
    /\ same_state (snd (f w1)) (snd (f w2))
    /\ exists evs, w_trace (snd (f w1)) = (w_trace w1 ++ evs)%list
                   /\ w_trace (snd (f w2)) = (w_trace w2 ++ evs)%list.

End Notions.

(** ** A concrete storage backend, world and models *)

Module Demo.

Definition DbState : Type := list MemoryRow.
Definition Schema : Type := unit.

Definition derive_schema (tool : @Callable DbState Schema) (strict : bool)
  : Result Schema := Ok tt.

(** Rows in a list, last write wins. *)
Definition list_db : @MemoryDb DbState :=
  mkMemoryDb
    (fun row s => (Ok tt, filter (fun r => negb (row_id r =? row_id row)) s ++ [row])%list)
    (fun memory_id s => (Ok tt, filter (fun r => negb (row_id r =? memory_id)) s))
    (fun _ => (Ok tt, [])).

(** A backend out of space: every method raises. *)
Definition full_db : @MemoryDb DbState :=
  mkMemoryDb
    (fun _ s => (Raise "disk full", s))
    (fun _ s => (Raise "disk full", s))
    (fun s => (Raise "disk full", s)).

Definition w0 : @World DbState Schema :=
  mkWorld [] (fun n => n) (fun _ => "7d9f") 0 [].

Definition no_kwargs : Kwargs := mkKwargs "" "" None.

(** A model that answers at once. *)
Definition quiet : @Model DbState Schema :=
  mkModel None None
    (fun _ _ => Done (mkResponse (Some "Nothing to do") None))
    (fun _ _ => Done (mkResponse (Some "Nothing to do") None)).

(** A model that adds one memory and answers with what the tool said. *)
Definition adder : @Model DbState Schema :=
  let kw := mkKwargs "" "Likes tea" None in
  let script :=
    Invoke "add_memory" kw
      (fun out => Done (mkResponse (Some out) (Some [mkToolCall "add_memory" kw]))) in
  mkModel None None (fun _ _ => script) (fun _ _ => script).

(** A model that clears the store. *)
Definition clearer : @Model DbState Schema :=
  let script :=
    Invoke "clear_memory" no_kwargs
      (fun out => Done (mkResponse (Some out) (Some [mkToolCall "clear_memory" no_kwargs]))) in
  mkModel None None (fun _ _ => script) (fun _ _ => script).

Definition manager (m : option Model) : @MemoryManager DbState Schema :=
  MemoryManager_init m None.

Definition tea : Message := mkMessage "user" (Some "I like tea").
Definition empty_turn : Message := mkMessage "user" (Some "").
Definition m1 : ExistingMemory := mkExisting "m1" "Likes tea".

(** The system instruction of the last inference call in a trace. *)
Definition instruction_sent (trace : list (@Event Schema)) : string :=
  fold_left
    (fun acc ev =>
       match ev with
       | EvResponse _ (sys :: _) | EvAResponse _ (sys :: _) => text_of sys
       | _ => acc
       end) trace "".

(** The names of the tools shown to the model at the inference calls. *)
Definition tools_shown (trace : list (@Event Schema)) : list (list string) :=
  flat_map
    (fun ev =>
       match ev with
       | EvResponse (Some ts) _ | EvAResponse (Some ts) _ =>
           [map (fun t => fd_name (td_function t)) ts]
       | _ => []
       end) trace.

End Demo.

(** ** Strings: joining and searching *)

Lemma append_assoc (a b c : string) : (a ++ b) ++ c = a ++ (b ++ c).
Proof.
  induction a as [| ch a IH]; simpl; [reflexivity | now rewrite IH].
Qed.

Lemma append_nil_r (a : string) : a ++ "" = a.
Proof.
  induction a as [| ch a IH]; simpl; [reflexivity | now rewrite IH].
Qed.

Lemma concat_cons (sep x y : string) (rest : list string) :
  String.concat sep (x :: y :: rest) = x ++ sep ++ String.concat sep (y :: rest).
Proof. reflexivity. Qed.

(** Joining two non-empty runs of lines joins their joins. *)
Lemma concat_app (sep : string) (xs : list string) (y : string) (ys : list string) :
  xs <> [] ->
  String.concat sep (xs ++ y :: ys) =
  String.concat sep xs ++ sep ++ String.concat sep (y :: ys).
Proof.
  induction xs as [| x xs IH]; intros Hne; [congruence |].
  destruct xs as [| x' xs].
  - reflexivity.
  - specialize (IH ltac:(discriminate)).
    simpl app in *.
    rewrite (concat_cons sep x x' (xs ++ y :: ys)), IH, (concat_cons sep x x' xs).
    now rewrite !append_assoc.
Qed.

Lemma prefix_refl (s : string) : String.prefix s s = true.
Proof.
  induction s as [| ch s IH]; simpl; [reflexivity |].
  destruct (ascii_dec ch ch); [exact IH | congruence].
Qed.

Lemma contains_refl (s : string) : contains s s = true.
Proof.
  destruct s; simpl; [reflexivity |].
  rewrite <- (prefix_refl (String a s)) at 1. simpl.
  destruct (ascii_dec a a); [| congruence].
  now rewrite prefix_refl.
Qed.

Lemma contains_append_r (needle pre : string) :
  contains needle (pre ++ needle) = true.
Proof.
  induction pre as [| ch pre IH]; simpl.
  - apply contains_refl.
  - rewrite IH. apply orb_true_r.
Qed.

(** ** The system instruction *)

Section Instruction.

Context {DbState Schema : Type}.
Implicit Types (self : @MemoryManager DbState Schema).

Lemma system_prompt_lines_split existing_memories messages d c :
  system_prompt_lines existing_memories messages d c =
  (system_prompt_lines None messages d c ++ existing_section existing_memories)%list.
Proof.
  unfold system_prompt_lines, existing_section.
  destruct existing_memories as [[| e es] |]; now rewrite ?app_nil_r.
Qed.

Lemma system_prompt_lines_head messages d c :
  exists rest, system_prompt_lines None messages d c = task_line :: rest.
Proof.
  unfold system_prompt_lines.
  destruct d, c, messages as [[| m ms] |]; eexists; reflexivity.
Qed.

Lemma system_prompt_lines_nonempty messages d c :
  system_prompt_lines None messages d c <> [].
Proof.
  destruct (system_prompt_lines_head messages d c) as [rest ->]. discriminate.
Qed.

Lemma concat_existing_memory_lines (es : list ExistingMemory) (closing : string) :
  String.concat nl (existing_memory_lines es ++ [closing]) = entries_text es ++ closing.
Proof.
  induction es as [| e es IH]; [reflexivity |].
  cbn [existing_memory_lines app].
  rewrite concat_cons, concat_cons.
  assert (Hnl : forall rest : list string, rest <> [] ->
            String.concat nl (nl :: rest) = nl ++ nl ++ String.concat nl rest).
  { intros [| r rest] H; [congruence | apply concat_cons]. }
  rewrite Hnl, IH by (now destruct (existing_memory_lines es)).
  cbn [entries_text]. now rewrite !append_assoc.
Qed.

(** The non-empty case of the rendering of the existing memories. *)
Lemma existing_memories_text self e es messages d c :
  text_of (get_system_message self (Some (e :: es)) messages d c) =
  text_of (get_system_message self None messages d c)
  ++ nl ++ "<existing_memories>" ++ nl
  ++ entries_text (e :: es) ++ "</existing_memories>".
Proof.
  unfold text_of, get_system_message, get_content_string. cbn [content].
  rewrite (system_prompt_lines_split (Some (e :: es))).
  cbn [existing_section app].
  rewrite concat_app by apply system_prompt_lines_nonempty.
  destruct (existing_memory_lines (e :: es) ++ ["</existing_memories>"])%list
    as [| l ls] eqn:E.
  - discriminate E.
  - now rewrite concat_cons, <- E, concat_existing_memory_lines.
Qed.

End Instruction.

(** C3, as the specification words it, fails: with the single existing
    entry (m1, "Likes tea") no line of the rendered instruction carries
    both the identifier and the text of the entry; they are rendered on
    two lines. *)
Lemma C3_no_line_carries_id_and_text :
  one_line_per_entry [Demo.m1]
    (split_lines
       (text_of (get_system_message (Demo.manager None) (Some [Demo.m1]) None true true)))
  = false.
Proof. vm_compute. reflexivity. Qed.

(** C3, amended: for every non-empty list of existing entries, whatever the
    messages and the two flags, the rendered instruction is the instruction
    without existing entries followed by an [<existing_memories>] section
    that holds, for each entry in input order, a line [ID: <identifier>],
    a line [Memory: <text>] and two empty lines; for an empty list the
    instruction has no such section. *)
Theorem C3_existing_memories_rendered :
  forall {DbState Schema : Type} (self : @MemoryManager DbState Schema)
         (messages : option (list Message)) (d c : bool),
    (forall (e : ExistingMemory) (es : list ExistingMemory),
        text_of (get_system_message self (Some (e :: es)) messages d c) =
        text_of (get_system_message self None messages d c)
        ++ nl ++ "<existing_memories>" ++ nl
        ++ entries_text (e :: es) ++ "</existing_memories>")
    /\ get_system_message self (Some []) messages d c =
       get_system_message self None messages d c.
Proof.
  intros DbState Schema self messages d c. split.
  - intros e es. apply existing_memories_text.
  - reflexivity.
Qed.

(** ** The synthetic input string *)

Lemma concat_comma_joined (xs : list string) :
  String.concat ", " xs = comma_joined xs.
Proof.
  induction xs as [| x [| y rest] IH]; try reflexivity.
  rewrite concat_cons, IH. reflexivity.
Qed.

Lemma filter_user_texts (messages : list Message) :
  map get_content_string (filter (fun m => is_user m && content_truthy m) messages)
  = user_texts messages.
Proof.
  induction messages as [| m rest IH]; [reflexivity |].
  cbn [filter user_texts]. unfold is_user, content_truthy, get_content_string in *.
  destruct (content m) as [[| ch s] |] eqn:E.
  - rewrite andb_false_r. exact IH.
  - cbn [String.eqb negb]. rewrite andb_true_r.
    destruct (role m =? "user"); [| exact IH].
    cbn [map]. now rewrite E, IH.
  - rewrite andb_false_r. exact IH.
Qed.

(** C4, as the specification words it, fails: of the two user-authored
    messages "I like tea" and "" the code keeps only the first, where the
    claim lists the contents of both. *)
Lemma C4_empty_user_message_is_dropped :
  input_string_of [Demo.tea; Demo.empty_turn] = "[I like tea]"
  /\ claimed_input_string [Demo.tea; Demo.empty_turn] = "[I like tea, ]"
  /\ input_string_of [Demo.tea; Demo.empty_turn]
     <> claimed_input_string [Demo.tea; Demo.empty_turn].
Proof.
  split; [vm_compute; reflexivity |].
  split; [vm_compute; reflexivity |].
  vm_compute. discriminate.
Qed.

(** C4, amended: a list of exactly one message gives that message's content
    verbatim; any other list gives [[m1, m2, ..., mk]] where m1..mk are the
    contents of the user-authored messages whose content is not empty,
    joined by a comma and a space, in their original order. *)
Theorem C4_input_string :
  (forall m : Message, input_string_of [m] = get_content_string m)
  /\ (forall messages : list Message,
         length messages <> 1 ->
         input_string_of messages = bracketed (user_texts messages)).
Proof.
  split; [reflexivity |].
  intros messages Hlen. unfold input_string_of, bracketed.
  rewrite filter_user_texts, concat_comma_joined.
  destruct messages as [| m [| m' rest]]; [reflexivity | | reflexivity].
  now contradiction Hlen.
Qed.

(** C4, at three messages of which the second is by the assistant. *)
Lemma C4_input_string_witness :
  length [Demo.tea; mkMessage "assistant" (Some "Noted"); Demo.tea] <> 1
  /\ input_string_of [Demo.tea; mkMessage "assistant" (Some "Noted"); Demo.tea]
     = "[I like tea, I like tea]".
Proof.
  assert (H : length [Demo.tea; mkMessage "assistant" (Some "Noted"); Demo.tea] <> 1)
    by (simpl; lia).
  split; [exact H |].
  exact (proj2 C4_input_string
           [Demo.tea; mkMessage "assistant" (Some "Noted"); Demo.tea] H).
Defined.

(** ** The options that the instruction offers *)

Section Options.

Context {DbState Schema : Type}.
Implicit Types (self : @MemoryManager DbState Schema).

Lemma system_prompt_lines_data existing_memories messages d c :
  system_prompt_lines existing_memories messages d c =
  (system_prompt_lines None None d c
   ++ messages_section messages ++ existing_section existing_memories)%list.
Proof.
  rewrite system_prompt_lines_split, app_assoc. f_equal.
  unfold system_prompt_lines, messages_section.
  destruct messages as [[| m ms] |]; now rewrite ?app_nil_r.
Qed.

(** The text of the instruction is the text that the two flags decide,
    followed by the text that the inputs decide. *)
Lemma instruction_then_data self existing_memories messages d c :
  text_of (get_system_message self existing_memories messages d c) =
  text_of (get_system_message self None None d c)
  ++ embedded_data existing_memories messages.
Proof.
  unfold text_of, get_system_message, get_content_string, embedded_data.
  cbn [content]. rewrite system_prompt_lines_data.
  destruct (messages_section messages ++ existing_section existing_memories)%list
    as [| line rest].
  - now rewrite app_nil_r, append_nil_r.
  - now rewrite concat_app by apply system_prompt_lines_nonempty.
Qed.

End Options.


(** ** The entry points *)

Section EntryPoints.

Context {DbState Schema : Type}.
Variable derive_schema : @Callable DbState Schema -> bool -> Result Schema.
Implicit Types (self : @MemoryManager DbState Schema) (w : @World DbState Schema).

(** An entry point is its guard on the model followed by [finish] on the
    outcome of its inference call. *)
Lemma run_entry_unfold (c : EntryCall) self w :
  run_entry derive_schema c self w =
  match model self with
  | None => (Ok "No model provided for memory manager", self, w)
  | Some m => finish self (model_call derive_schema c self m w)
  end.
Proof. destruct c; reflexivity. Qed.

Lemma finish_flag self (out : Result ModelResponse * World) :
  memories_updated self = true ->
  memories_updated (snd (fst (finish self out))) = true.
Proof.
  intros H. destruct out as [[resp | e] w']; cbn; [| exact H].
  now destruct (has_tool_calls resp).
Qed.

Lemma call_step_flag (st st' : MemoryManager * World) :
  call_step derive_schema st st' ->
  memories_updated (fst st) = true -> memories_updated (fst st') = true.
Proof.
  intros (c & r & Hrun) H. rewrite run_entry_unfold in Hrun.
  destruct (model (fst st)) as [m |].
  - apply (finish_flag _ (model_call derive_schema c (fst st) m (snd st))) in H.
    now rewrite Hrun in H.
  - destruct st, st'; cbn [fst snd] in *. congruence.
Qed.

End EntryPoints.

(** C5: on each of the four entry points, when the inference call of the
    call answers with a response that reports one or more tool invocations
    the flag [memories_updated] is true after the call, and when it reports
    none ([None] or an empty list) the flag keeps its prior value; whatever
    the outcome of a call, a flag that was true is true after it, and so
    after any number of calls. *)
Theorem C5_memories_updated_flag :
  forall {DbState Schema : Type}
         (derive_schema : @Callable DbState Schema -> bool -> Result Schema),
    (forall (c : EntryCall) (self : MemoryManager) (m : Model)
            (w w' : World) (resp : ModelResponse),
        model self = Some m ->
        model_call derive_schema c self m w = (Ok resp, w') ->
        exists (text : string) (self' : MemoryManager),
          run_entry derive_schema c self w = (Ok text, self', w')
          /\ (forall tc tcs, r_tool_calls resp = Some (tc :: tcs) ->
                memories_updated self' = true)
          /\ (r_tool_calls resp = None \/ r_tool_calls resp = Some [] ->
                memories_updated self' = memories_updated self))
    /\ (forall (c : EntryCall) (self self' : MemoryManager) (w w' : World)
               (r : Result string),
           run_entry derive_schema c self w = (r, self', w') ->
           memories_updated self = true -> memories_updated self' = true)
    /\ (forall st st' : MemoryManager * World,
           call_steps derive_schema st st' ->
           memories_updated (fst st) = true -> memories_updated (fst st') = true).
Proof.
  intros DbState Schema derive_schema. split; [| split].
  - intros c self m w w' resp Hm Hcall.
    rewrite run_entry_unfold, Hm, Hcall. cbn [finish].
    eexists. eexists. split; [reflexivity |]. unfold has_tool_calls. split.
    + intros tc tcs ->. reflexivity.
    + intros [-> | ->]; reflexivity.
  - intros c self self' w w' r Hrun H.
    apply (call_step_flag derive_schema (self, w) (self', w')); [| exact H].
    now exists c, r.
  - intros st st' Hsteps. induction Hsteps as [st | st st' st'' Hstep _ IH].
    + trivial.
    + intros H. apply IH. now apply (call_step_flag derive_schema st st').
Qed.

(** C5, at a call that adds one memory and at a call that adds none. *)
Lemma C5_memories_updated_flag_witness :
  memories_updated
    (snd (fst (run_entry Demo.derive_schema
                 (CreateOrUpdate [Demo.tea] [] "u1" Demo.list_db)
                 (Demo.manager (Some Demo.adder)) Demo.w0))) = true.
Proof.
  destruct (proj1 (C5_memories_updated_flag Demo.derive_schema)
              (CreateOrUpdate [Demo.tea] [] "u1" Demo.list_db)
              (Demo.manager (Some Demo.adder)) Demo.adder Demo.w0
              _ _ eq_refl eq_refl)
    as (text & self' & Hrun & Hsome & _).
  rewrite Hrun. cbn [fst snd]. eapply Hsome. reflexivity.
Defined.

(** C6: with no model, each of the four entry points returns the sentinel
    string and leaves the manager and the world as they were: no storage
    call, no inference call, no draw from the clock or the uuid source, and
    nothing raised. *)
Theorem C6_no_model :
  forall {DbState Schema : Type}
         (derive_schema : @Callable DbState Schema -> bool -> Result Schema)
         (self : MemoryManager) (w : World),
    model self = None ->
    (forall messages existing_memories user_id db,
        create_or_update_memories derive_schema self messages existing_memories
          user_id db w
        = (Ok "No model provided for memory manager", self, w))
    /\ (forall messages existing_memories user_id db,
           acreate_or_update_memories derive_schema self messages existing_memories
             user_id db w
           = (Ok "No model provided for memory manager", self, w))
    /\ (forall task existing_memories user_id db,
           run_memory_task derive_schema self task existing_memories user_id db w
           = (Ok "No model provided for memory manager", self, w))
    /\ (forall task existing_memories user_id db,
           arun_memory_task derive_schema self task existing_memories user_id db w
           = (Ok "No model provided for memory manager", self, w)).
Proof.
  intros DbState Schema derive_schema self w Hnone.
  unfold create_or_update_memories, acreate_or_update_memories,
    run_memory_task, arun_memory_task.
  rewrite Hnone. repeat split.
Qed.

(** C6, at a manager built without a model and a backend that would raise. *)
Lemma C6_no_model_witness :
  model (Demo.manager None) = None
  /\ run_memory_task Demo.derive_schema (Demo.manager None) "Forget everything"
       [Demo.m1] "u1" Demo.full_db Demo.w0
     = (Ok "No model provided for memory manager", Demo.manager None, Demo.w0).
Proof.
  split; [reflexivity |].
  apply (C6_no_model Demo.derive_schema (Demo.manager None) Demo.w0 eq_refl).
Defined.

(** ** Failures of the storage backend *)

Section StorageFailures.

Context {DbState Schema : Type}.
Variable derive_schema : @Callable DbState Schema -> bool -> Result Schema.
Implicit Types (self : @MemoryManager DbState Schema) (w : @World DbState Schema)
  (db : @MemoryDb DbState).

Lemma add_memory_raising user_id db input_string memory topics w e s :
  db_upsert_memory db (row_to_add user_id input_string memory topics w) (w_db w)
  = (Raise e, s) ->
  add_memory user_id db input_string memory topics w =
  (Ok ("Error adding memory: " ++ e),
   mkWorld s (w_now w) (w_uuid4 w) (S (S (w_tick w)))
     (w_trace (world_at_upsert user_id input_string memory topics w))).
Proof.
  intros H. unfold add_memory, try_except, bind, datetime_now, uuid4_str, db_call,
    record_event, ret. cbn.
  unfold row_to_add in H. cbn in H. now rewrite H.
Qed.

Lemma add_memory_returns user_id db input_string :
  @never_raises DbState Schema (fun kw => add_memory user_id db input_string (kw_memory kw) (kw_topics kw)).
Proof.
  intros kw w. unfold add_memory, try_except, bind, datetime_now, uuid4_str, db_call,
    record_event, ret. cbn.
  destruct (db_upsert_memory db _ (w_db w)) as [[[] | e] s]; eexists; eexists; reflexivity.
Qed.

Lemma update_memory_returns user_id db input_string :
  @never_raises DbState Schema (fun kw => update_memory user_id db input_string
                            (kw_memory_id kw) (kw_memory kw) (kw_topics kw)).
Proof.
  intros kw w. unfold update_memory, try_except, bind, datetime_now, db_call,
    record_event, ret. cbn.
  destruct (db_upsert_memory db _ (w_db w)) as [[[] | e] s]; eexists; eexists; reflexivity.
Qed.

Lemma delete_memory_returns db :
  @never_raises DbState Schema (fun kw => delete_memory db (kw_memory_id kw)).
Proof.
  intros kw w. unfold delete_memory, try_except, bind, db_call, record_event, ret. cbn.
  destruct (db_delete_memory db _ (w_db w)) as [[[] | e] s]; eexists; eexists; reflexivity.
Qed.

Lemma dict_get_Forall {V} (P : string * V -> Prop) k (d : list (string * V)) v :
  Forall P d -> dict_get k d = Some v -> exists k', P (k', v).
Proof.
  induction 1 as [| [k0 v0] d H0 Hd IH]; cbn; [discriminate |].
  destruct (k0 =? k).
  - intros [= <-]. now exists k0.
  - exact IH.
Qed.

Lemma dict_set_Forall {V} (P : string * V -> Prop) k v (d : list (string * V)) :
  P (k, v) -> Forall P d -> Forall P (dict_set k v d).
Proof.
  intros Hv. induction 1 as [| [k0 v0] d H0 Hd IH]; cbn.
  - now constructor.
  - destruct (k0 =? k); now constructor.
Qed.

(** A response returns, whatever its tools do. *)
Lemma run_function_calls_returns
    (functions : list (string * @Function DbState Schema)) (s : Script) :
  forall w, exists resp w', run_function_calls functions s w = (Ok resp, w').
Proof.
  induction s as [r | fname kwargs k IH]; intros w; cbn.
  - now exists r, w.
  - destruct (dict_get fname functions) as [func |]; [| apply IH].
    unfold bind, try_except.
    destruct (f_entrypoint func kwargs w) as [[out | e] w1]; apply IH.
Qed.

(** The inference call of an entry point returns. *)
Lemma model_call_returns (c : EntryCall) self (m : Model) w :
  exists resp w', model_call derive_schema c self m w = (Ok resp, w').
Proof.
  destruct c; cbn [model_call]; unfold response, aresponse;
    apply run_function_calls_returns.
Qed.

(** An entry point returns the text of the response that its inference
    call returns. *)
Lemma run_entry_returns (c : EntryCall) self (m : Model) w :
  model self = Some m ->
  (exists resp w', model_call derive_schema c self m w = (Ok resp, w')) ->
  exists resp self' w',
    model_call derive_schema c self m w = (Ok resp, w')
    /\ run_entry derive_schema c self w
       = (Ok (content_or resp "No response from model"), self', w').
Proof.
  intros Hm (resp & w' & Hcall). exists resp. eexists. exists w'.
  split; [exact Hcall |]. rewrite run_entry_unfold, Hm, Hcall. reflexivity.
Qed.

End StorageFailures.

(** C7: when the backend raises [e] on the row that [add_memory] upserts,
    [add_memory] returns the string ["Error adding memory: " ++ e], which
    begins with "Error adding memory:" and contains [e]; and the
    enclosing call completes: for each of the four entry points and for
    every backend, model and world, the inference call returns a response,
    and the entry point returns the text of that response (or the fallback
    when it has none), with nothing raised. *)
Theorem C7_add_memory_failure_is_reported :
  forall {DbState Schema : Type}
         (derive_schema : @Callable DbState Schema -> bool -> Result Schema),
    (forall (user_id input_string memory : string) (topics : option (list string))
            (db : MemoryDb) (w : @World DbState Schema) (e : string) (s : DbState),
        db_upsert_memory db (row_to_add user_id input_string memory topics w) (w_db w)
        = (Raise e, s) ->
        exists (out : string) (w' : World),
          add_memory user_id db input_string memory topics w = (Ok out, w')
          /\ out = "Error adding memory: " ++ e
          /\ String.prefix "Error adding memory:" out = true
          /\ contains e out = true)
    /\ (forall (c : EntryCall) (self : MemoryManager) (m : Model) (w : World),
           model self = Some m ->
           exists (resp : ModelResponse) (self' : MemoryManager) (w' : World),
             model_call derive_schema c self m w = (Ok resp, w')
             /\ run_entry derive_schema c self w
                = (Ok (content_or resp "No response from model"), self', w')).
Proof.
  intros DbState Schema derive_schema. split.
  - intros user_id input_string memory topics db w e s H.
    rewrite (add_memory_raising _ _ _ _ _ _ _ _ H).
    eexists. eexists. split; [reflexivity |]. split; [reflexivity |]. split.
    + reflexivity.
    + apply contains_append_r.
  - intros c self m w Hm. apply run_entry_returns; [exact Hm |].
    apply model_call_returns.
Qed.

(** C7, at the backend that is out of space and the model that adds one
    memory: the tool reports the failure, and both an extract-from-dialogue
    call and a run-free-form-task call return the text with which the
    model answers, here the report of the tool. *)
Lemma C7_add_memory_failure_witness :
  db_upsert_memory Demo.full_db
    (row_to_add "u1" "I like tea" "Likes tea" None Demo.w0) (w_db Demo.w0)
  = (Raise "disk full", [])
  /\ fst (add_memory "u1" Demo.full_db "I like tea" "Likes tea" None Demo.w0)
     = Ok "Error adding memory: disk full"
  /\ fst (fst (create_or_update_memories Demo.derive_schema
                 (Demo.manager (Some Demo.adder)) [Demo.tea] [] "u1"
                 Demo.full_db Demo.w0))
     = Ok "Error adding memory: disk full"
  /\ fst (fst (run_memory_task Demo.derive_schema
                 (Demo.manager (Some Demo.adder)) "Remember that I like tea" [] "u1"
                 Demo.full_db Demo.w0))
     = Ok "Error adding memory: disk full".
Proof.
  assert (H : db_upsert_memory Demo.full_db
                (row_to_add "u1" "I like tea" "Likes tea" None Demo.w0) (w_db Demo.w0)
              = (Raise "disk full", [])) by reflexivity.
  split; [exact H |]. split; [| split].
  - destruct (proj1 (C7_add_memory_failure_is_reported Demo.derive_schema)
                "u1" "I like tea" "Likes tea" None Demo.full_db Demo.w0 _ _ H)
      as (out & w' & Hrun & Hout & _).
    rewrite Hrun, Hout. reflexivity.
  - destruct (proj2 (C7_add_memory_failure_is_reported Demo.derive_schema)
                (CreateOrUpdate [Demo.tea] [] "u1" Demo.full_db)
                (Demo.manager (Some Demo.adder)) Demo.adder Demo.w0 eq_refl)
      as (resp & self' & w' & Hcall & Hrun).
    cbn [run_entry] in Hrun. rewrite Hrun.
    vm_compute in Hcall. injection Hcall as <- _. reflexivity.
  - destruct (proj2 (C7_add_memory_failure_is_reported Demo.derive_schema)
                (RunTask "Remember that I like tea" [] "u1" Demo.full_db)
                (Demo.manager (Some Demo.adder)) Demo.adder Demo.w0 eq_refl)
      as (resp & self' & w' & Hcall & Hrun).
    cbn [run_entry] in Hrun. rewrite Hrun.
    vm_compute in Hcall. injection Hcall as <- _. reflexivity.
Defined.

(** ** Registering the tools *)

Section Registration.

Context {DbState Schema : Type}.
Variable derive_schema : @Callable DbState Schema -> bool -> Result Schema.
Implicit Types (self : @MemoryManager DbState Schema) (m : @Model DbState Schema).

Lemma add_tool_fresh acc (tool : Callable) s :
  dict_mem (__name__ tool) (snd acc) = false ->
  derive_schema tool true = Ok s ->
  add_tool derive_schema acc tool =
  ((fst acc ++ [mkToolDict "function" (mkFunctionDict (__name__ tool) true s)])%list,
   dict_set (__name__ tool) (mkFunction (__name__ tool) true s (call tool)) (snd acc)).
Proof.
  intros Hfresh Hs. destruct acc as [ts fs]. cbn [fst snd] in *.
  unfold add_tool, from_callable. now rewrite Hfresh, Hs.
Qed.

(** Registration does not look at what the model had registered before. *)
Lemma add_tools_to_model_resets self m (tools : list Callable)
    (old_tools : option (list ToolDict))
    (old_functions : option (list (string * Function))) :
  add_tools_to_model derive_schema self
    (mkModel old_tools old_functions (policy m) (apolicy m)) tools
  = add_tools_to_model derive_schema self m tools.
Proof.
  unfold add_tools_to_model.
  destruct (fold_left (add_tool derive_schema) tools ([], [])) as [ts fs].
  now destruct fs.
Qed.

Lemma task_tools_registered self m user_id db task :
  schemas_derivable derive_schema ->
  let registered :=
    add_tools_to_model derive_schema self m
      (_get_db_tools self user_id db task true true true true) in
  tool_names registered
  = Some ["add_memory"; "update_memory"; "delete_memory"; "clear_memory"]
  /\ function_names registered
     = Some ["add_memory"; "update_memory"; "delete_memory"; "clear_memory"].
Proof.
  intros H. unfold add_tools_to_model, _get_db_tools. cbn [app fold_left].
  match goal with
  | |- context [add_tool _ ([], []) ?t] =>
      destruct (H t) as [s1 H1]; [cbn; tauto |];
      rewrite (add_tool_fresh ([], []) t s1 eq_refl H1)
  end.
  cbn [fst snd app dict_set __name__ call].
  match goal with
  | |- context [add_tool _ ?acc ?t] =>
      destruct (H t) as [s2 H2]; [cbn; tauto |];
      rewrite (add_tool_fresh acc t s2 eq_refl H2)
  end.
  cbn [fst snd app dict_set __name__ call String.eqb Ascii.eqb Bool.eqb].
  match goal with
  | |- context [add_tool _ ?acc ?t] =>
      destruct (H t) as [s3 H3]; [cbn; tauto |];
      rewrite (add_tool_fresh acc t s3 eq_refl H3)
  end.
  cbn [fst snd app dict_set __name__ call String.eqb Ascii.eqb Bool.eqb].
  match goal with
  | |- context [add_tool _ ?acc ?t] =>
      destruct (H t) as [s4 H4]; [cbn; tauto |];
      rewrite (add_tool_fresh acc t s4 eq_refl H4)
  end.
  cbn. split; reflexivity.
Qed.

Lemma extract_tools_registered self m user_id db input_string :
  schemas_derivable derive_schema ->
  let registered :=
    add_tools_to_model derive_schema self m
      (_get_db_tools self user_id db input_string true true false false) in
  tool_names registered = Some ["add_memory"; "update_memory"]
  /\ function_names registered = Some ["add_memory"; "update_memory"].
Proof.
  intros H. unfold add_tools_to_model, _get_db_tools. cbn [app fold_left].
  match goal with
  | |- context [add_tool _ ([], []) ?t] =>
      destruct (H t) as [s1 H1]; [cbn; tauto |];
      rewrite (add_tool_fresh ([], []) t s1 eq_refl H1)
  end.
  cbn [fst snd app dict_set __name__ call].
  match goal with
  | |- context [add_tool _ ?acc ?t] =>
      destruct (H t) as [s2 H2]; [cbn; tauto |];
      rewrite (add_tool_fresh acc t s2 eq_refl H2)
  end.
  cbn. split; reflexivity.
Qed.

End Registration.

(** C8: when schema reflection succeeds on the tools of this module,
    registering the tools of run-free-form-task exposes exactly the four
    operations add_memory, update_memory, delete_memory, clear_memory, in
    this order; registering the tools of extract-from-dialogue exposes
    exactly add_memory and update_memory; and the model that a
    registration leaves does not depend on the tools and functions that
    were registered on it before. *)
Theorem C8_registered_tools :
  forall {DbState Schema : Type}
         (derive_schema : @Callable DbState Schema -> bool -> Result Schema),
    schemas_derivable derive_schema ->
    forall (self : MemoryManager) (m : Model) (user_id : string) (db : MemoryDb)
           (task input_string : string),
      (let registered :=
         add_tools_to_model derive_schema self m
           (_get_db_tools self user_id db task true true true true) in
       tool_names registered
       = Some ["add_memory"; "update_memory"; "delete_memory"; "clear_memory"]
       /\ function_names registered
          = Some ["add_memory"; "update_memory"; "delete_memory"; "clear_memory"])
      /\ (let registered :=
            add_tools_to_model derive_schema self m
              (_get_db_tools self user_id db input_string true true false false) in
          tool_names registered = Some ["add_memory"; "update_memory"]
          /\ function_names registered = Some ["add_memory"; "update_memory"])
      /\ (forall (tools : list Callable) (old_tools : option (list ToolDict))
                 (old_functions : option (list (string * Function))),
             add_tools_to_model derive_schema self
               (mkModel old_tools old_functions (policy m) (apolicy m)) tools
             = add_tools_to_model derive_schema self m tools).
Proof.
  intros DbState Schema derive_schema H self m user_id db task input_string.
  split; [| split].
  - now apply task_tools_registered.
  - now apply extract_tools_registered.
  - intros tools old_tools old_functions. apply add_tools_to_model_resets.
Qed.

(** C8, at a model on which the four tools were registered before the two
    tools of extract-from-dialogue are. *)
Lemma C8_registered_tools_witness :
  schemas_derivable Demo.derive_schema
  /\ tool_names
       (add_tools_to_model Demo.derive_schema (Demo.manager None)
          (add_tools_to_model Demo.derive_schema (Demo.manager None) Demo.quiet
             (_get_db_tools (Demo.manager None) "u1" Demo.list_db "Forget me"
                true true true true))
          (_get_db_tools (Demo.manager None) "u1" Demo.list_db "I like tea"
             true true false false))
     = Some ["add_memory"; "update_memory"].
Proof.
  assert (H : schemas_derivable Demo.derive_schema)
    by (intros tool _; exists tt; reflexivity).
  split; [exact H |].
  exact (proj1 (proj1 (proj2 (C8_registered_tools Demo.derive_schema H
                                (Demo.manager None)
                                (add_tools_to_model Demo.derive_schema (Demo.manager None)
                                   Demo.quiet
                                   (_get_db_tools (Demo.manager None) "u1" Demo.list_db
                                      "Forget me" true true true true))
                                "u1" Demo.list_db "Forget me" "I like tea")))).
Defined.

(** C10: [system_prompt] is never read.  [get_system_message] returns the
    same message whatever the field holds, and a call of any of the four
    entry points on a manager with another [system_prompt] returns the same
    result and leaves the same world (the same storage state and the same
    trace of storage and inference calls), and the same manager up to that
    field. *)
Theorem C10_system_prompt_is_not_read :
  forall {DbState Schema : Type}
         (derive_schema : @Callable DbState Schema -> bool -> Result Schema)
         (self : MemoryManager) (p : option string),
    (forall existing_memories messages d c,
        get_system_message (with_system_prompt p self) existing_memories messages d c
        = get_system_message self existing_memories messages d c)
    /\ (forall (c : EntryCall) (w : World),
           run_entry derive_schema c (with_system_prompt p self) w
           = (fst (fst (run_entry derive_schema c self w)),
              with_system_prompt p (snd (fst (run_entry derive_schema c self w))),
              snd (run_entry derive_schema c self w))).
Proof.
  intros DbState Schema derive_schema self p. split; [reflexivity |].
  intros c w. rewrite !run_entry_unfold. cbn [with_system_prompt model].
  destruct (model self) as [m |]; [| reflexivity].
  assert (E : model_call derive_schema c (with_system_prompt p self) m
              = model_call derive_schema c self m) by (destruct c; reflexivity).
  rewrite E.
  destruct (model_call derive_schema c self m w) as [[resp | e] w']; cbn; [| reflexivity].
  now destruct (has_tool_calls resp).
Qed.

(** ** The two places where the code leaves its specification *)

(** C1: on the dialogue "I like tea" with one existing memory the sync
    entry point sends an instruction that names neither [delete_memory]
    nor [clear_memory], while the async one, which leaves the two flags of
    [get_system_message] at their defaults, sends an instruction that
    names both; both register add_memory and update_memory only. *)
Theorem C1_async_instruction_offers_delete_and_clear :
  let sync_trace :=
    w_trace (snd (create_or_update_memories Demo.derive_schema
                    (Demo.manager (Some Demo.quiet)) [Demo.tea] [Demo.m1] "u1"
                    Demo.list_db Demo.w0)) in
  let async_trace :=
    w_trace (snd (acreate_or_update_memories Demo.derive_schema
                    (Demo.manager (Some Demo.quiet)) [Demo.tea] [Demo.m1] "u1"
                    Demo.list_db Demo.w0)) in
  (contains "delete_memory" (Demo.instruction_sent sync_trace),
   contains "clear_memory" (Demo.instruction_sent sync_trace)) = (false, false)
  /\ (contains "delete_memory" (Demo.instruction_sent async_trace),
      contains "clear_memory" (Demo.instruction_sent async_trace)) = (true, true)
  /\ Demo.tools_shown sync_trace = [["add_memory"; "update_memory"]]
  /\ Demo.tools_shown async_trace = [["add_memory"; "update_memory"]].
Proof. vm_compute. repeat split. Qed.

(** C2: against the backend that is out of space, [delete_memory] returns
    a string that reports the failure, but [clear_memory], which has no
    [try], raises: the exception leaves the tool.  The response hands its
    bare message to the model, so that [run_memory_task] returns what the
    model makes of it. *)
Theorem C2_clear_memory_raises :
  fst (delete_memory Demo.full_db "m1" Demo.w0) = Ok "Error deleting memory: disk full"
  /\ fst (clear_memory Demo.full_db Demo.w0) = Raise "disk full"
  /\ (let '(r, self', w') :=
        run_memory_task Demo.derive_schema (Demo.manager (Some Demo.clearer))
          "Forget everything" [Demo.m1] "u1" Demo.full_db Demo.w0 in
      (r, memories_updated self') = (Ok "disk full", true)).
Proof. vm_compute. repeat split. Qed.

(** ** What the tools do to the backend *)

Section Tools.

Context {DbState Schema : Type}.
Variable derive_schema : @Callable DbState Schema -> bool -> Result Schema.
Implicit Types (self : @MemoryManager DbState Schema) (w : @World DbState Schema)
  (db : @MemoryDb DbState) (P : @Event Schema -> Prop).

Lemma grows_by_refl P w : grows_by P w w.
Proof. exists []. split; [now rewrite app_nil_r | constructor]. Qed.

Lemma grows_by_trans P w1 w2 w3 :
  grows_by P w1 w2 -> grows_by P w2 w3 -> grows_by P w1 w3.
Proof.
  intros (evs1 & E1 & H1) (evs2 & E2 & H2). exists (evs1 ++ evs2)%list. split.
  - now rewrite E2, E1, app_assoc.
  - now apply Forall_app.
Qed.

Lemma grows_by_impl P (Q : @Event Schema -> Prop) w w' :
  (forall ev, P ev -> Q ev) -> grows_by P w w' -> grows_by Q w w'.
Proof.
  intros HPQ (evs & E & H). exists evs. split; [exact E |].
  now apply (Forall_impl Q HPQ).
Qed.

Lemma add_memory_records user_id db input_string P :
  (forall row, row_for user_id input_string row -> P (EvUpsert row)) ->
  records_only P
    (fun kw => add_memory user_id db input_string (kw_memory kw) (kw_topics kw)).
Proof.
  intros HP kw w.
  unfold add_memory, try_except, bind, datetime_now, uuid4_str, db_call,
    record_event, ret. cbn.
  destruct (db_upsert_memory db _ (w_db w)) as [[[] | e] s]; cbn;
    (eexists; split; [reflexivity |]);
    repeat constructor; apply HP; repeat split.
Qed.

Lemma update_memory_records user_id db input_string P :
  (forall row, row_for user_id input_string row -> P (EvUpsert row)) ->
  records_only P
    (fun kw => update_memory user_id db input_string
                 (kw_memory_id kw) (kw_memory kw) (kw_topics kw)).
Proof.
  intros HP kw w.
  unfold update_memory, try_except, bind, datetime_now, db_call, record_event, ret. cbn.
  destruct (db_upsert_memory db _ (w_db w)) as [[[] | e] s]; cbn;
    (eexists; split; [reflexivity |]);
    repeat constructor; apply HP; repeat split.
Qed.

Lemma delete_memory_records db P :
  (forall memory_id, P (EvDelete memory_id)) ->
  records_only P (fun kw => delete_memory db (kw_memory_id kw)).
Proof.
  intros HP kw w. unfold delete_memory, try_except, bind, db_call, record_event, ret. cbn.
  destruct (db_delete_memory db _ (w_db w)) as [[[] | e] s]; cbn;
    (eexists; split; [reflexivity |]); repeat constructor; apply HP.
Qed.

Lemma clear_memory_records db P :
  P EvClear -> records_only P (fun _ => clear_memory db).
Proof.
  intros HP kw w. unfold clear_memory, bind, db_call, record_event, ret. cbn.
  destruct (db_clear db (w_db w)) as [[[] | e] s]; cbn;
    (eexists; split; [reflexivity |]); repeat constructor; exact HP.
Qed.

(** What holds of the bodies of the tools holds of the entry points of the
    functions that a registration leaves on the model. *)
Lemma registered_entrypoints (Q : (Kwargs -> @M DbState Schema string) -> Prop)
    self (m : Model) (tools : list Callable) :
  Forall (fun tool => Q (call tool)) tools ->
  Forall (fun kv => Q (f_entrypoint (snd kv)))
    (registered_functions (add_tools_to_model derive_schema self m tools)).
Proof.
  intros Htools. unfold add_tools_to_model.
  assert (H : forall acc, Forall (fun kv => Q (f_entrypoint (snd kv))) (snd acc) ->
            Forall (fun kv => Q (f_entrypoint (snd kv)))
              (snd (fold_left (add_tool derive_schema) tools acc))).
  { induction Htools as [| tool tools Ht _ IH]; intros acc Hacc; cbn; [exact Hacc |].
    apply IH. destruct acc as [ts fs]. unfold add_tool, from_callable.
    destruct (negb (dict_mem (__name__ tool) fs)); [| exact Hacc].
    destruct (derive_schema tool true) as [s | e]; [| exact Hacc].
    cbn. now apply dict_set_Forall. }
  specialize (H ([], []) (Forall_nil _)).
  destruct (fold_left (add_tool derive_schema) tools ([], [])) as [ts fs].
  destruct fs as [| kv fs]; [constructor | exact H].
Qed.

(** A response records what the functions it runs record. *)
Lemma run_function_calls_records P functions (s : Script) :
  Forall (fun kv => records_only P (f_entrypoint (snd kv))) functions ->
  forall w, grows_by P w (snd (run_function_calls functions s w)).
Proof.
  intros Hall. induction s as [r | fname kwargs k IH]; intros w; cbn.
  - apply grows_by_refl.
  - destruct (dict_get fname functions) as [func |] eqn:E; [| apply IH].
    destruct (dict_get_Forall _ _ _ _ Hall E) as [k' Hf]. cbn in Hf.
    specialize (Hf kwargs w). unfold bind, try_except, ret.
    destruct (f_entrypoint func kwargs w) as [[out | e] w1]; cbn [snd] in *;
      (eapply grows_by_trans; [exact Hf | apply IH]).
Qed.

Lemma call_tools_record (c : EntryCall) self :
  match c with
  | CreateOrUpdate _ _ user_id db | ACreateOrUpdate _ _ user_id db =>
      Forall (fun tool => records_only (storage_of c) (call tool))
        (_get_db_tools self user_id db (input_of c) true true false false)
  | RunTask _ _ user_id db | ARunTask _ _ user_id db =>
      Forall (fun tool => records_only (storage_of c) (call tool))
        (_get_db_tools self user_id db (input_of c) true true true true)
  end.
Proof.
  destruct c; cbn [storage_of user_of input_of]; repeat constructor; cbn [call];
    first [ apply add_memory_records | apply update_memory_records
          | apply delete_memory_records | apply clear_memory_records ];
    cbn; tauto.
Qed.

Lemma snd_finish self (out : Result ModelResponse * World) :
  snd (finish self out) = snd out.
Proof. now destruct out as [[resp | e] w']. Qed.

(** The trace of a call on a manager with a model: the inference call,
    then storage calls of the tools registered for the call. *)
Lemma entry_trace (c : EntryCall) self (m : Model) w :
  model self = Some m ->
  exists tools sys evs,
    w_trace (snd (run_entry derive_schema c self w))
    = (w_trace w
       ++ inference_event c tools [sys; mkMessage "user" (Some (user_instruction c))]
       :: evs)%list
    /\ role sys = "system"
    /\ Forall (storage_of c) evs.
Proof.
  intros Hm. rewrite run_entry_unfold, Hm, snd_finish.
  pose proof (call_tools_record c self) as Htools.
  destruct c as [ms ex u db | ms ex u db | task ex u db | task ex u db];
    cbn [model_call inference_event user_instruction];
    unfold response, aresponse;
    match goal with
    | |- context [run_function_calls ?fs ?s (record_event ?ev w)] =>
        destruct (run_function_calls_records _ fs s
                    (registered_entrypoints _ _ _ _ Htools) (record_event ev w))
          as (evs & E & Hevs);
        rewrite E; cbn [record_event w_trace]; rewrite <- app_assoc;
        eexists; eexists; exists evs; split; [reflexivity |]; split;
        [reflexivity | exact Hevs]
    end.
Qed.

End Tools.

(** X1: for every backend, arguments and world, [add_memory],
    [update_memory] and [delete_memory] return and do not raise.  The
    string returned is the success message of the tool when the storage call
    returned, and otherwise "Error adding memory: " (for [add_memory] and
    for [update_memory] alike) or "Error deleting memory: " followed by
    the message of the exception; the storage is left as the storage call
    left it. *)
Theorem X1_storage_failures_become_results :
  forall {DbState Schema : Type} (user_id input_string : string) (db : MemoryDb)
         (kw : Kwargs) (w : @World DbState Schema),
    (let r := db_upsert_memory db
                (row_to_add user_id input_string (kw_memory kw) (kw_topics kw) w)
                (w_db w) in
     exists w',
       add_memory user_id db input_string (kw_memory kw) (kw_topics kw) w
       = (Ok match fst r with
             | Ok _ => "Memory added successfully"
             | Raise e => "Error adding memory: " ++ e
             end, w')
       /\ w_db w' = snd r)
    /\ (let now := w_now w (w_tick w) in
        let r := db_upsert_memory db
                   (mkMemoryRow (kw_memory_id kw) user_id
                      (mkUserMemory (kw_memory_id kw) (kw_memory kw) (kw_topics kw)
                         now input_string) now)
                   (w_db w) in
        exists w',
          update_memory user_id db input_string
            (kw_memory_id kw) (kw_memory kw) (kw_topics kw) w
          = (Ok match fst r with
                | Ok _ => "Memory updated successfully"
                | Raise e => "Error adding memory: " ++ e
                end, w')
          /\ w_db w' = snd r)
    /\ (let r := db_delete_memory db (kw_memory_id kw) (w_db w) in
        exists w',
          delete_memory db (kw_memory_id kw) w
          = (Ok match fst r with
                | Ok _ => "Memory deleted successfully"
                | Raise e => "Error deleting memory: " ++ e
                end, w')
          /\ w_db w' = snd r).
Proof.
  intros DbState Schema user_id input_string db kw w. split; [| split]; cbv zeta.
  - unfold add_memory, try_except, bind, datetime_now, uuid4_str, db_call,
      record_event, ret, row_to_add. cbn.
    destruct (db_upsert_memory db _ (w_db w)) as [[[] | e] s]; cbn;
      eexists; split; reflexivity.
  - unfold update_memory, try_except, bind, datetime_now, db_call, record_event, ret.
    cbn.
    destruct (db_upsert_memory db _ (w_db w)) as [[[] | e] s]; cbn;
      eexists; split; reflexivity.
  - unfold delete_memory, try_except, bind, db_call, record_event, ret. cbn.
    destruct (db_delete_memory db _ (w_db w)) as [[[] | e] s]; cbn;
      eexists; split; reflexivity.
Qed.

Section Outcomes.

Context {DbState Schema : Type}.
Variable derive_schema : @Callable DbState Schema -> bool -> Result Schema.
Implicit Types (self : @MemoryManager DbState Schema) (w : @World DbState Schema)
  (db : @MemoryDb DbState).

Lemma content_or_nonempty (resp : ModelResponse) (fallback : string) :
  fallback <> "" -> content_or resp fallback <> "".
Proof.
  intros H. unfold content_or. destruct (r_content resp) as [s |]; [| exact H].
  destruct (String.eqb_spec s ""); [exact H | assumption].
Qed.

End Outcomes.

(** X2: [clear_memory] does not catch: for every backend and world it
    returns "Memory cleared successfully" when [db.clear] returns, and when
    [db.clear] raises it raises the same exception; either way it makes the
    one call of [db.clear], and leaves the storage as that call left it. *)
Theorem X2_clear_memory_lets_failure_through :
  forall {DbState Schema : Type} (db : MemoryDb) (w : @World DbState Schema),
    let r := db_clear db (w_db w) in
    fst (clear_memory db w)
    = match fst r with
      | Ok _ => Ok "Memory cleared successfully"
      | Raise e => Raise e
      end
    /\ w_db (snd (clear_memory db w)) = snd r
    /\ w_trace (snd (clear_memory db w)) = (w_trace w ++ [EvClear])%list.
Proof.
  intros DbState Schema db w. cbv zeta.
  unfold clear_memory, bind, db_call, record_event, ret. cbn.
  destruct (db_clear db (w_db w)) as [[[] | e] s]; cbn; repeat split.
Qed.

(** X3: whatever the model does, a call of an extract-from-dialogue entry
    point, sync or async, makes no call of [db.delete_memory] and no call
    of [db.clear]: the events that it adds to the trace hold neither. *)
Theorem X3_extraction_never_purges :
  forall {DbState Schema : Type}
         (derive_schema : @Callable DbState Schema -> bool -> Result Schema)
         (self : MemoryManager) (messages : list Message)
         (existing_memories : list ExistingMemory) (user_id : string)
         (db : MemoryDb) (w : World),
    grows_by not_a_purge w
      (snd (create_or_update_memories derive_schema self messages existing_memories
              user_id db w))
    /\ grows_by not_a_purge w
         (snd (acreate_or_update_memories derive_schema self messages
                 existing_memories user_id db w)).
Proof.
  intros DbState Schema derive_schema self messages existing_memories user_id db w.
  assert (H : forall c : EntryCall,
             c = CreateOrUpdate messages existing_memories user_id db
             \/ c = ACreateOrUpdate messages existing_memories user_id db ->
             grows_by not_a_purge w (snd (run_entry derive_schema c self w))).
  { intros c Hc. destruct (model self) as [m |] eqn:Hm.
    - destruct (entry_trace derive_schema c self m w Hm)
        as (tools & sys & evs & E & _ & Hevs).
      eexists. split; [exact E |]. constructor.
      + destruct Hc as [-> | ->]; exact I.
      + apply (Forall_impl _ (P := storage_of c)); [| exact Hevs].
        destruct Hc as [-> | ->]; intros [row | id | | ts ms | ts ms]; cbn; tauto.
    - rewrite run_entry_unfold, Hm. apply grows_by_refl. }
  split.
  - exact (H _ (or_introl eq_refl)).
  - exact (H _ (or_intror eq_refl)).
Qed.

(** X4: whatever the model does, every row that a call of an entry point
    upserts carries the [user_id] of the call and the input string of the
    call (the string derived from the messages, or the task), and the
    memory in the row carries the identifier and the timestamp of the row. *)
Theorem X4_rows_belong_to_the_call :
  forall {DbState Schema : Type}
         (derive_schema : @Callable DbState Schema -> bool -> Result Schema)
         (c : EntryCall) (self : MemoryManager) (w : World),
    grows_by (upserts_for (user_of c) (input_of c)) w
      (snd (run_entry derive_schema c self w)).
Proof.
  intros DbState Schema derive_schema c self w.
  destruct (model self) as [m |] eqn:Hm.
  - destruct (entry_trace derive_schema c self m w Hm)
      as (tools & sys & evs & E & _ & Hevs).
    eexists. split; [exact E |]. constructor.
    + destruct c; exact I.
    + apply (Forall_impl _ (P := storage_of c)); [| exact Hevs].
      destruct c; intros [row | id | | ts ms | ts ms]; cbn; tauto.
  - rewrite run_entry_unfold, Hm. apply grows_by_refl.
Qed.

(** X5: a call of an entry point on a manager with a model makes exactly
    one inference call, before any storage call.  It sends two messages:
    one of role "system", then one of role "user" whose content is the
    fixed instruction (extract-from-dialogue) or the task
    (run-free-form-task).  Every later event of the call is a storage call
    of a tool registered for the call. *)
Theorem X5_one_inference_call :
  forall {DbState Schema : Type}
         (derive_schema : @Callable DbState Schema -> bool -> Result Schema)
         (c : EntryCall) (self : MemoryManager) (m : Model) (w : World),
    model self = Some m ->
    exists tools sys evs,
      w_trace (snd (run_entry derive_schema c self w))
      = (w_trace w
         ++ inference_event c tools [sys; mkMessage "user" (Some (user_instruction c))]
         :: evs)%list
      /\ role sys = "system"
      /\ Forall (storage_of c) evs.
Proof.
  intros DbState Schema derive_schema c self m w Hm.
  exact (entry_trace derive_schema c self m w Hm).
Qed.

(** X5, at the model that adds one memory. *)
Lemma X5_one_inference_call_witness :
  model (Demo.manager (Some Demo.adder)) = Some Demo.adder
  /\ exists tools sys evs,
       w_trace (snd (run_entry Demo.derive_schema
                       (CreateOrUpdate [Demo.tea] [] "u1" Demo.list_db)
                       (Demo.manager (Some Demo.adder)) Demo.w0))
       = (w_trace Demo.w0
          ++ EvResponse tools
               [sys; mkMessage "user"
                       (Some "Create or update memories based on the user's messages.")]
          :: evs)%list
       /\ role sys = "system"
       /\ Forall (is_upsert_for "u1" "I like tea") evs.
Proof.
  split; [reflexivity |].
  exact (X5_one_inference_call Demo.derive_schema
           (CreateOrUpdate [Demo.tea] [] "u1" Demo.list_db)
           (Demo.manager (Some Demo.adder)) Demo.adder Demo.w0 eq_refl).
Defined.

(** X6: an entry point never returns the empty string: what it returns is
    the sentinel, the content of the response, or, when the response has
    no content or an empty one, "No response from model". *)
Theorem X6_result_is_never_empty :
  forall {DbState Schema : Type}
         (derive_schema : @Callable DbState Schema -> bool -> Result Schema)
         (c : EntryCall) (self self' : MemoryManager) (w w' : World) (text : string),
    run_entry derive_schema c self w = (Ok text, self', w') ->
    text <> ""
    /\ (text = "No model provided for memory manager"
        \/ text = "No response from model"
        \/ exists (m : Model) (resp : ModelResponse),
             model self = Some m
             /\ model_call derive_schema c self m w = (Ok resp, w')
             /\ r_content resp = Some text).
Proof.
  intros DbState Schema derive_schema c self self' w w' text H.
  rewrite run_entry_unfold in H. destruct (model self) as [m |].
  - destruct (model_call derive_schema c self m w) as [[resp | e] w1] eqn:Hcall;
      [| discriminate].
    cbn in H. injection H as <- _ <-. split.
    + now apply content_or_nonempty.
    + unfold content_or. destruct (r_content resp) as [s |] eqn:Hs; [| now auto].
      destruct (s =? ""); [now auto |]. right. right. now exists m, resp.
  - injection H as <- _ _. split; [discriminate | now left].
Qed.

(** X6, at the model that answers at once. *)
Lemma X6_result_is_never_empty_witness :
  run_entry Demo.derive_schema (RunTask "Hello" [] "u1" Demo.list_db)
    (Demo.manager (Some Demo.quiet)) Demo.w0
  = (Ok "Nothing to do", Demo.manager (Some Demo.quiet),
     snd (run_entry Demo.derive_schema (RunTask "Hello" [] "u1" Demo.list_db)
            (Demo.manager (Some Demo.quiet)) Demo.w0))
  /\ "Nothing to do" <> "".
Proof.
  assert (H : run_entry Demo.derive_schema (RunTask "Hello" [] "u1" Demo.list_db)
                (Demo.manager (Some Demo.quiet)) Demo.w0
              = (Ok "Nothing to do", Demo.manager (Some Demo.quiet),
                 snd (run_entry Demo.derive_schema (RunTask "Hello" [] "u1" Demo.list_db)
                        (Demo.manager (Some Demo.quiet)) Demo.w0)))
    by reflexivity.
  split; [exact H |].
  exact (proj1 (X6_result_is_never_empty Demo.derive_schema _ _ _ _ _ _ H)).
Defined.

(** ** Which tools a registration keeps *)

Section Kept.

Context {DbState Schema : Type}.
Variable derive_schema : @Callable DbState Schema -> bool -> Result Schema.
Implicit Types (self : @MemoryManager DbState Schema)
  (acc : list (@ToolDict Schema) * list (string * @Function DbState Schema)).

Lemma dict_mem_In {V} (k : string) (d : list (string * V)) :
  dict_mem k d = true <-> In k (map fst d).
Proof.
  unfold dict_mem. induction d as [| [k0 v0] d IH]; cbn.
  - split; [discriminate | tauto].
  - destruct (String.eqb_spec k0 k) as [-> | Hne].
    + split; auto.
    + rewrite IH. split; [auto | intros [? | ?]; [contradiction | assumption]].
Qed.

Lemma dict_set_fresh {V} (k : string) (v : V) (d : list (string * V)) :
  dict_mem k d = false -> map fst (dict_set k v d) = (map fst d ++ [k])%list.
Proof.
  unfold dict_mem. induction d as [| [k0 v0] d IH]; cbn; [reflexivity |].
  destruct (k0 =? k); [discriminate |]. intros H. cbn. now rewrite IH.
Qed.

(** A turn of the loop either keeps the tool, under its [__name__] and at
    the end of both collections, or changes nothing. *)
Lemma add_tool_step acc (tool : Callable) :
  let acc' := add_tool derive_schema acc tool in
  (dict_mem (__name__ tool) (snd acc) = false
   /\ derivable derive_schema tool = true
   /\ map (fun t => fd_name (td_function t)) (fst acc')
      = (map (fun t => fd_name (td_function t)) (fst acc) ++ [__name__ tool])%list
   /\ map fst (snd acc') = (map fst (snd acc) ++ [__name__ tool])%list)
  \/ ((dict_mem (__name__ tool) (snd acc) = true
       \/ derivable derive_schema tool = false)
      /\ acc' = acc).
Proof.
  destruct acc as [ts fs]. cbn [fst snd]. unfold add_tool, from_callable, derivable.
  destruct (dict_mem (__name__ tool) fs) eqn:Hmem; cbn [negb]; [now right; auto |].
  destruct (derive_schema tool true) as [s | e]; [| now right; auto].
  left. cbn [fst snd f_name to_dict]. repeat split.
  - now rewrite map_app.
  - now apply dict_set_fresh.
Qed.

Lemma fold_add_tool_names (tools : list Callable) acc :
  map (fun t => fd_name (td_function t)) (fst acc) = map fst (snd acc) ->
  NoDup (map fst (snd acc)) ->
  let acc' := fold_left (add_tool derive_schema) tools acc in
  map (fun t => fd_name (td_function t)) (fst acc') = map fst (snd acc')
  /\ NoDup (map fst (snd acc'))
  /\ forall n, In n (map fst (snd acc')) <->
               In n (map fst (snd acc))
               \/ exists tool, In tool tools /\ __name__ tool = n
                               /\ derivable derive_schema tool = true.
Proof.
  revert acc. induction tools as [| tool tools IH]; intros acc Heq Hnd; cbn.
  - repeat split; auto. intros [H | (t & [] & _)]. exact H.
  - destruct (add_tool_step acc tool) as [(Hmem & Hd & Hn & Hk) | (Hskip & Hacc)].
    + assert (Hfresh : ~ In (__name__ tool) (map fst (snd acc))).
      { intros Hin. apply dict_mem_In in Hin. congruence. }
      destruct (IH (add_tool derive_schema acc tool)) as (E & N & I).
      * now rewrite Hn, Hk, Heq.
      * rewrite Hk. apply NoDup_app; [exact Hnd | repeat constructor; intros [] | ].
        intros a Ha [<- | []]. contradiction.
      * split; [exact E |]. split; [exact N |]. intros n. rewrite I, Hk, in_app_iff.
        cbn [In]. split.
        -- intros [[H | [<- | []]] | (t & Ht & Hname & Hdt)]; eauto 8.
        -- intros [H | (t & [<- | Ht] & Hname & Hdt)]; eauto 8.
    + rewrite Hacc. destruct (IH acc Heq Hnd) as (E & N & I).
      split; [exact E |]. split; [exact N |]. intros n. rewrite I. split.
      * intros [H | (t & Ht & Hname & Hdt)]; eauto 8.
      * intros [H | (t & [<- | Ht] & Hname & Hdt)]; eauto 8.
        destruct Hskip as [Hmem | Hno]; [| congruence].
        left. rewrite <- Hname. now apply dict_mem_In.
Qed.

End Kept.

(** X7: for every list of tools, registration on a model succeeds and
    leaves the same names, without repetition, on the list of tools shown
    to the model and as the keys of the functions that a response can run
    (none when the model has no functions); a name is among them
    exactly when some tool of the list has it as its [__name__] and schema
    reflection succeeds on that tool.  A tool on which reflection fails,
    and a tool whose name is already registered, is left out. *)
Theorem X7_registration_keeps_derivable_names :
  forall {DbState Schema : Type}
         (derive_schema : @Callable DbState Schema -> bool -> Result Schema)
         (self : MemoryManager) (m : Model) (tools : list Callable),
    exists names : list string,
      tool_names (add_tools_to_model derive_schema self m tools) = Some names
      /\ map fst (registered_functions (add_tools_to_model derive_schema self m tools))
         = names
      /\ NoDup names
      /\ forall n, In n names <->
                   exists tool, In tool tools /\ __name__ tool = n
                                /\ derivable derive_schema tool = true.
Proof.
  intros DbState Schema derive_schema self m tools.
  destruct (fold_add_tool_names derive_schema tools ([], []) eq_refl (NoDup_nil _))
    as (E & N & I).
  unfold add_tools_to_model, tool_names.
  destruct (fold_left (add_tool derive_schema) tools ([], [])) as [ts fs].
  cbn [fst snd] in *. exists (map fst fs).
  assert (Htools : option_map (map (fun t => fd_name (td_function t)))
                     (_tools (set_functions fs
                                (set_tools ts (reset_tools_and_functions m))))
                   = Some (map fst fs))
    by (destruct fs; cbn; now rewrite E).
  assert (Hfuns : map fst (registered_functions
                             (set_functions fs
                                (set_tools ts (reset_tools_and_functions m))))
                  = map fst fs)
    by (now destruct fs).
  repeat split; try assumption.
  - intros H. apply I in H. destruct H as [[] | H]. exact H.
  - intros H. apply I. now right.
Qed.

(** ** The dialogue in the instruction *)

Lemma filter_user_contents (messages : list Message) :
  map get_content_string (filter is_user messages) = user_contents messages.
Proof.
  induction messages as [| m rest IH]; [reflexivity |].
  cbn [filter user_contents]. unfold is_user at 1.
  destruct (role m =? "user"); cbn [map]; now rewrite IH.
Qed.

(** X8: for a non-empty dialogue the rendered instruction holds, right
    after the text that the two flags decide and an empty line, a
    [<user_messages>] section with the contents of all the user-authored
    messages, those without content as empty lines, one after the other in
    their order, and nothing of the messages of other roles; the existing
    memories follow.  For an empty dialogue the instruction is the one
    rendered without messages. *)
Theorem X8_user_messages_rendered :
  forall {DbState Schema : Type} (self : @MemoryManager DbState Schema)
         (existing_memories : option (list ExistingMemory)) (d c : bool),
    (forall (m : Message) (ms : list Message),
        text_of (get_system_message self existing_memories (Some (m :: ms)) d c) =
        text_of (get_system_message self None None d c)
        ++ nl ++ nl ++ "<user_messages>" ++ nl
        ++ String.concat nl (user_contents (m :: ms)) ++ nl ++ "</user_messages>"
        ++ embedded_data existing_memories None)
    /\ get_system_message self existing_memories (Some []) d c
       = get_system_message self existing_memories None d c.
Proof.
  intros DbState Schema self existing_memories d c. split; [| reflexivity].
  intros m ms. rewrite instruction_then_data. f_equal.
  unfold embedded_data. cbn [messages_section app].
  rewrite filter_user_contents.
  destruct (existing_section existing_memories) as [| line rest].
  - cbn [String.concat]. now rewrite !append_assoc, append_nil_r.
  - rewrite !concat_cons. now rewrite !append_assoc.
Qed.

(** X9: the two flags act independently: the text that they decide names
    the [delete_memory] tool exactly when [enable_delete_memory] is set and
    the [clear_memory] tool exactly when [enable_clear_memory] is set.  The
    numbers of the options are fixed: with delete disabled and clear
    enabled, the option numbered 5 comes right after the option numbered
    3. *)
Theorem X9_flags_are_independent :
  forall {DbState Schema : Type} (self : @MemoryManager DbState Schema) (d c : bool),
    contains "delete_memory" (text_of (get_system_message self None None d c)) = d
    /\ contains "clear_memory" (text_of (get_system_message self None None d c)) = c
    /\ firstn 2 (skipn 4
         (split_lines (text_of (get_system_message self None None false true))))
       = [ "  3. Decide to update an existing memory using the `update_memory` tool.";
           "  5. Decide to clear all memories using the `clear_memory` tool." ].
Proof.
  intros DbState Schema self d c.
  destruct d, c; repeat split; vm_compute; reflexivity.
Qed.

(** ** The sync and the async entry point of run-free-form-task *)

Section SyncAsync.

Context {DbState Schema : Type}.
Variable derive_schema : @Callable DbState Schema -> bool -> Result Schema.
Implicit Types (self : @MemoryManager DbState Schema) (w : @World DbState Schema)
  (db : @MemoryDb DbState).

Ltac same_worlds w1 w2 H :=
  destruct w1 as [s1 now1 uuid1 tick1 trace1], w2 as [s2 now2 uuid2 tick2 trace2];
  destruct H as (Hs & Hn & Hu & Ht); cbn in Hs, Hn, Hu, Ht; subst s2 now2 uuid2 tick2.

Lemma add_memory_blind user_id db input_string memory topics :
  @trace_blind DbState Schema _ (add_memory user_id db input_string memory topics).
Proof.
  intros w1 w2 H. same_worlds w1 w2 H.
  unfold add_memory, try_except, bind, datetime_now, uuid4_str, db_call,
    record_event, ret. cbn.
  destruct (db_upsert_memory db _ s1) as [[[] | e] s]; cbn;
    (split; [reflexivity |]); (split; [now repeat split |]);
    eexists; split; reflexivity.
Qed.

Lemma update_memory_blind user_id db input_string memory_id memory topics :
  @trace_blind DbState Schema _ (update_memory user_id db input_string memory_id memory topics).
Proof.
  intros w1 w2 H. same_worlds w1 w2 H.
  unfold update_memory, try_except, bind, datetime_now, db_call, record_event, ret. cbn.
  destruct (db_upsert_memory db _ s1) as [[[] | e] s]; cbn;
    (split; [reflexivity |]); (split; [now repeat split |]);
    eexists; split; reflexivity.
Qed.

Lemma delete_memory_blind db memory_id :
  @trace_blind DbState Schema _ (delete_memory db memory_id).
Proof.
  intros w1 w2 H. same_worlds w1 w2 H.
  unfold delete_memory, try_except, bind, db_call, record_event, ret. cbn.
  destruct (db_delete_memory db _ s1) as [[[] | e] s]; cbn;
    (split; [reflexivity |]); (split; [now repeat split |]);
    eexists; split; reflexivity.
Qed.

Lemma clear_memory_blind db : @trace_blind DbState Schema _ (clear_memory db).
Proof.
  intros w1 w2 H. same_worlds w1 w2 H.
  unfold clear_memory, bind, db_call, record_event, ret. cbn.
  destruct (db_clear db s1) as [[[] | e] s]; cbn;
    (split; [reflexivity |]); (split; [now repeat split |]);
    eexists; split; reflexivity.
Qed.

Lemma db_tools_blind self user_id db input_string (a u d c : bool) :
  Forall (fun tool => forall kw, trace_blind (call tool kw))
    (_get_db_tools self user_id db input_string a u d c).
Proof.
  unfold _get_db_tools.
  destruct a, u, d, c; cbn [app];
    repeat apply Forall_cons; try apply Forall_nil; cbn [call]; intros kw;
    first [ apply add_memory_blind | apply update_memory_blind
          | apply delete_memory_blind | apply clear_memory_blind ].
Qed.

(** A response does not read the trace when its functions do not. *)
Lemma run_function_calls_blind
    (functions : list (string * @Function DbState Schema)) (s : Script) :
  Forall (fun kv => forall kw, trace_blind (f_entrypoint (snd kv) kw)) functions ->
  trace_blind (run_function_calls functions s).
Proof.
  intros Hall. induction s as [r | fname kwargs k IH]; intros w1 w2 H; cbn.
  - split; [reflexivity |]. split; [exact H |].
    exists []. now rewrite !app_nil_r.
  - destruct (dict_get fname functions) as [func |] eqn:E; [| now apply IH].
    destruct (dict_get_Forall _ _ _ _ Hall E) as [k' Hf]. cbn in Hf.
    destruct (Hf kwargs w1 w2 H) as (Hr & Hsame & evs & E1 & E2).
    unfold bind, try_except, ret.
    destruct (f_entrypoint func kwargs w1) as [r1 w1'],
             (f_entrypoint func kwargs w2) as [r2 w2'].
    cbn [fst snd] in *. subst r2.
    destruct r1 as [out | out];
      destruct (IH out w1' w2' Hsame) as (Hr' & Hsame' & evs' & E1' & E2');
      (split; [exact Hr' |]); (split; [exact Hsame' |]);
      exists (evs ++ evs')%list; now rewrite E1', E2', E1, E2, !app_assoc.
Qed.

(** Registration leaves the model behind [response] and [aresponse] as it
    is. *)
Lemma add_tools_to_model_policy self (m : Model) (tools : list Callable) :
  policy (add_tools_to_model derive_schema self m tools) = policy m
  /\ apolicy (add_tools_to_model derive_schema self m tools) = apolicy m.
Proof.
  unfold add_tools_to_model.
  destruct (fold_left (add_tool derive_schema) tools ([], [])) as [ts fs].
  now destruct fs.
Qed.

End SyncAsync.

(** X10: on a model whose [aresponse] decides as its [response] does,
    [arun_memory_task] and [run_memory_task] return the same result, leave
    the same manager and the same storage, draw as often from the clock
    and the uuid source, and add the same events to the trace, but for the
    inference call, which they make with the same tools and messages, one
    through [aresponse] and the other through [response]. *)
Theorem X10_run_memory_task_sync_async_agree :
  forall {DbState Schema : Type}
         (derive_schema : @Callable DbState Schema -> bool -> Result Schema)
         (self : MemoryManager) (m : Model) (task : string)
         (existing_memories : list ExistingMemory) (user_id : string)
         (db : MemoryDb) (w : World),
    model self = Some m ->
    (forall tools messages, apolicy m tools messages = policy m tools messages) ->
    let sync := run_memory_task derive_schema self task existing_memories user_id db w in
    let async := arun_memory_task derive_schema self task existing_memories user_id db w in
    fst async = fst sync
    /\ same_state (snd async) (snd sync)
    /\ exists tools messages evs,
         w_trace (snd sync) = (w_trace w ++ EvResponse tools messages :: evs)%list
         /\ w_trace (snd async) = (w_trace w ++ EvAResponse tools messages :: evs)%list.
Proof.
  intros DbState Schema derive_schema self m task existing_memories user_id db w
    Hm Hpolicy sync async. subst sync async.
  unfold run_memory_task, arun_memory_task. rewrite Hm.
  unfold response, aresponse.
  rewrite (proj1 (add_tools_to_model_policy derive_schema self (deepcopy m) _)),
    (proj2 (add_tools_to_model_policy derive_schema self (deepcopy m) _)).
  unfold deepcopy. rewrite Hpolicy.
  set (registered := add_tools_to_model derive_schema self m
                       (_get_db_tools self user_id db task true true true true)).
  set (messages := [get_system_message self (Some existing_memories) None true true;
                    mkMessage "user" (Some task)]).
  set (script := policy m (_tools registered) messages).
  assert (Hsame : same_state
                    (record_event (EvAResponse (_tools registered) messages) w)
                    (record_event (EvResponse (_tools registered) messages) w))
    by (now repeat split).
  destruct (run_function_calls_blind (registered_functions registered) script
              (registered_entrypoints derive_schema
                 (fun f => forall kw, trace_blind (f kw)) self m _
                 (db_tools_blind self user_id db task true true true true))
              _ _ Hsame)
    as (Hr & Hsame' & evs & Ea & Es).
  destruct (run_function_calls (registered_functions registered) script
              (record_event (EvAResponse (_tools registered) messages) w))
    as [ra wa].
  destruct (run_function_calls (registered_functions registered) script
              (record_event (EvResponse (_tools registered) messages) w))
    as [rs ws].
  cbn [fst snd] in Hr, Hsame', Ea, Es. subst rs.
  cbn [record_event w_trace] in Ea, Es. rewrite <- app_assoc in Ea, Es.
  destruct ra as [resp | e]; cbn [finish fst snd];
    (split; [reflexivity |]); (split; [exact Hsame' |]);
    exists (_tools registered), messages, evs; now split.
Qed.

(** X10, at the model that answers at once. *)
Lemma X10_run_memory_task_sync_async_witness :
  fst (arun_memory_task Demo.derive_schema (Demo.manager (Some Demo.quiet))
         "Hello" [Demo.m1] "u1" Demo.list_db Demo.w0)
  = fst (run_memory_task Demo.derive_schema (Demo.manager (Some Demo.quiet))
           "Hello" [Demo.m1] "u1" Demo.list_db Demo.w0).
Proof.
  exact (proj1 (X10_run_memory_task_sync_async_agree Demo.derive_schema
                  (Demo.manager (Some Demo.quiet)) Demo.quiet "Hello" [Demo.m1] "u1"
                  Demo.list_db Demo.w0 eq_refl (fun _ _ => eq_refl))).
Defined.
